(** * Task prioritisation heuristic of the task manager

    A shallow embedding of the rule-based prioritisation that the Express
    backend ([backend/routes/tasks.js], [generateRuleBasedPrioritization] and
    the [POST /prioritize] handler) and the React frontend
    ([src/services/aiService.ts], [AIService.fallbackPrioritization] and
    [AIService.suggestPrioritization]) implement, with the properties the
    specification states about it.

    Conventions of the embedding:
    - a [Date] is its time value, an integer number of milliseconds ([Z]);
    - a JavaScript number that the code computes with integers is a [Z];
      a quotient that the code passes at once to [Math.ceil] or
      [Math.floor] is the exact quotient (the rounding of the quotient
      moves it across no integer unless the dates are more than a hundred
      thousand years apart); any other number is the rational [Q] that the
      IEEE 754 double denotes, and an operation on doubles is the exact
      operation followed by the rounding to the nearest double, ties to
      even ([round64]);
    - the objects the code builds with object literals, and the JSON that
      comes back from the remote call, are values of the type [value];
    - [Math.random] is a sequence of draws [nat -> Q], the k-th call
      returning the k-th draw;
    - the database and the remote model are inputs of the handler (a
      [world]), and the handler records the calls it makes in a trace. *)

From Stdlib Require Import ZArith QArith Qround Qminmax String List Bool Lia.
From Stdlib Require Floats.
Import ListNotations.

Local Open Scope string_scope.
Local Open Scope Z_scope.

(** ** JavaScript values *)

#[warnings="-register-all"]
Inductive value : Type :=
| VUndefined
| VNull
| VBool (b : bool)
| VNum (q : Q)
| VStr (s : string)
| VArr (elems : list value)
| VObj (props : list (string * value)).

(** [ToBoolean]: what [x || y] and [if (x)] test. *)
Definition truthy (v : value) : bool :=
  match v with
  | VUndefined | VNull => false
  | VBool b => b
  | VNum q => negb (Qeq_bool q 0)
  | VStr s => negb (String.eqb s "")
  | VArr _ | VObj _ => true
  end.

(** [a || b] *)
Definition js_or (a b : value) : value := if truthy a then a else b.

(** An object keeps one value per key: the last one written. *)
Fixpoint lookup (k : string) (props : list (string * value)) : option value :=
  match props with
  | [] => None
  | (k', v) :: rest =>
      match lookup k rest with
      | Some v' => Some v'
      | None => if String.eqb k k' then Some v else None
      end
  end.

(** [v.k], for the keys this program reads ([suggestions], [insights],
    [recommendations], and the fields of a suggestion): [None] is the
    TypeError of reading a property of [null] or [undefined]; a key that is
    not there reads as [undefined]. *)
Definition get_prop (v : value) (k : string) : option value :=
  match v with
  | VUndefined | VNull => None
  | VObj props =>
      match lookup k props with
      | Some x => Some x
      | None => Some VUndefined
      end
  | _ => Some VUndefined
  end.

(** [v.k] where the read cannot throw. *)
Definition field (k : string) (v : value) : value :=
  match get_prop v k with
  | Some x => x
  | None => VUndefined
  end.

Definition keys (v : value) : list string :=
  match v with
  | VObj props => map fst props
  | _ => []
  end.

Definition elements (v : value) : list value :=
  match v with
  | VArr l => l
  | _ => []
  end.

Definition is_array (v : value) : bool :=
  match v with
  | VArr _ => true
  | _ => false
  end.

(** ** Tasks *)

(** [priority: { enum: ['low', 'medium', 'high'] }] in the Mongoose schema,
    ['low' | 'medium' | 'high'] in the frontend's [Task]. *)
Inductive Priority : Type := Low | Medium | High.

(** [status: { enum: ['todo', 'in-progress', 'completed', 'archived'] }];
    the frontend's type has the first three. *)
Inductive Status : Type := Todo | InProgress | Completed | Archived.

Definition status_eqb (a b : Status) : bool :=
  match a, b with
  | Todo, Todo | InProgress, InProgress
  | Completed, Completed | Archived, Archived => true
  | _, _ => false
  end.

(** The fields of a task that the prioritisation reads. [id] is
    [task._id.toString()] on the backend and [task.id] on the frontend;
    [dueDate] is [None] when the field is unset ([undefined], [null] or the
    empty string, all falsy) and the time value of the date otherwise;
    [timeSpent] is in minutes. *)
Record Task : Type := mkTask {
  id : string;
  priority : Priority;
  status : Status;
  dueDate : option Z;
  timeSpent : Z
}.

(** ** Library functions the code calls *)

(** [1000 * 60 * 60 * 24] *)
Definition MS_PER_DAY : Z := 1000 * 60 * 60 * 24.

(** [Math.ceil((due - now) / (1000 * 60 * 60 * 24))] *)
Definition daysUntil (now due : Z) : Z :=
  Qceiling (inject_Z (due - now) / inject_Z MS_PER_DAY).

(** *** Doubles

    A finite double is a rational [m * 2 ^ e] with [|m| < 2 ^ 53] and
    [-1074 <= e]. The numbers of this program stay far below [2 ^ 1024],
    where a double overflows, so the rounding has no upper end. *)

(** [2 ^ e] *)
Definition pow2 (e : Z) : Q :=
  if 0 <? e then inject_Z (2 ^ e) else 1 # Z.to_pos (2 ^ (- e)).

(** The integer nearest to [x], the even one of the two when [x] is
    halfway. *)
Definition rne (x : Q) : Z :=
  let f := Qfloor x in
  match (x - inject_Z f ?= 1 # 2)%Q with
  | Lt => f
  | Gt => f + 1
  | Eq => if Z.even f then f else f + 1
  end.

(** [floor(log2(x))] for [x > 0]. *)
Definition ilog2 (x : Q) : Z :=
  let l := Z.log2 (Qnum x) - Z.log2 (Zpos (Qden x)) in
  if Qle_bool (pow2 l) x then l else l - 1.

(** The double nearest to [x > 0]: 53 significant bits, or the multiples
    of [2 ^ -1074] for a subnormal; as a fraction in lowest terms. *)
Definition round_pos (x : Q) : Q :=
  let e := Z.max (ilog2 x - 52) (-1074) in
  Qred (inject_Z (rne (x / pow2 e)) * pow2 e).

(** The double nearest to [x], ties to even. *)
Definition round64 (x : Q) : Q :=
  match (x ?= 0)%Q with
  | Eq => 0
  | Gt => round_pos x
  | Lt => - round_pos (- x)
  end.

(** [a + b] and [a * b] on doubles. *)
Definition double_add (a b : Q) : Q := round64 (a + b).

Definition double_mul (a b : Q) : Q := round64 (a * b).

(** The primitive floats are binary64 numbers with the arithmetic of the
    processor; they serve to test [round64]. *)
Module Binary64.

Import Floats.

(** The rational that a finite primitive float denotes. *)
Definition value_of (f : float) : Q :=
  match Prim2SF f with
  | SpecFloat.S754_finite s m e =>
      let v := (inject_Z (Zpos m) * pow2 e)%Q in
      if s then (- v)%Q else v
  | _ => 0%Q
  end.

(** Whether the product and the sum of [a] and [b] are what [double_mul]
    and [double_add] make of the numbers that [a] and [b] denote. *)
Definition agree_on (a b : float) : bool :=
  Qeq_bool (value_of (a * b)%float) (double_mul (value_of a) (value_of b))
  && Qeq_bool (value_of (a + b)%float)
              (double_add (value_of a) (value_of b)).

(** [1 - 2 ^ -52], the largest multiple of [2 ^ -52] below 1. *)
Definition largest_draw : float := (1 - Z.ldexp 1 (-52)%Z)%float.

Definition samples : list (float * float) :=
  [ (largest_draw, 20);
    (45, largest_draw * 20);
    (1 / 3, 20);
    (70, 1 / 3 * 20);
    (1 / 3, 1 / 7);
    (Z.ldexp 1 (-1070)%Z, 1 / 3);
    (Z.ldexp 3 (-1074)%Z, 1 / 2);
    (- (2 / 3), 5 / 7);
    (1 / 10, 2 / 10) ]%float.

End Binary64.

(** [reasons.join(sep)] *)
Definition join (sep : string) (l : list string) : string := String.concat sep l.

(** [reasons.push(r)] *)
Definition push (reasons : list string) (r : string) : list string :=
  (reasons ++ [r])%list.

(** [tasks.map(callback)] where the callback calls [Math.random()] once:
    the callback for the task at position [i] gets draw [k + i]. *)
Fixpoint map_random {A B : Type} (f : Q -> A -> B) (rnd : nat -> Q) (k : nat)
    (l : list A) : list B :=
  match l with
  | [] => []
  | x :: rest => f (rnd k) x :: map_random f rnd (S k) rest
  end.

(** [const priorityWeights = { high: 30, medium: 15, low: 5 }] *)
Definition priorityWeights (p : Priority) : Z :=
  match p with
  | High => 30
  | Medium => 15
  | Low => 5
  end.

Definition label (p : Priority) : string :=
  match p with
  | High => "high"
  | Medium => "medium"
  | Low => "low"
  end.

(** ** Backend: [generateRuleBasedPrioritization] *)

Module Backend.

(** The callback of [tasks.map] up to the status rule: the accumulated
    [score] and [reasons]. *)
Definition score_reasons (now : Z) (task : Task) : Z * list string :=
  let score := 0 in
  let reasons : list string := [] in
  (* Deadline urgency *)
  let '(score, reasons) :=
    match dueDate task with
    | Some due =>
        let daysUntilDue := daysUntil now due in
        if daysUntilDue <=? 1 then (score + 40, push reasons "Due very soon")
        else if daysUntilDue <=? 3 then (score + 25, push reasons "Due within 3 days")
        else if daysUntilDue <=? 7 then (score + 15, push reasons "Due this week")
        else (score, reasons)
    | None => (score, reasons)
    end in
  (* Current priority weight *)
  let score := score + priorityWeights (priority task) in
  (* Time investment *)
  let '(score, reasons) :=
    if timeSpent task >? 120
    then (score + 20, push reasons "Significant time invested")
    else (score, reasons) in
  (* Status consideration *)
  let '(score, reasons) :=
    if status_eqb (status task) InProgress
    then (score + 15, push reasons "Currently in progress")
    else (score, reasons) in
  (score, reasons).

Definition score (now : Z) (task : Task) : Z := fst (score_reasons now task).

(** The rest of the callback: the label and the object it returns. [rand]
    is the value of its [Math.random()]; the confidence,
    [Math.min(95, Math.max(60, score + Math.random() * 20))], is computed
    on doubles. *)
Definition suggestion (now : Z) (rand : Q) (task : Task) : value :=
  let '(score, reasons) := score_reasons now task in
  let suggestedPriority :=
    if score >=? 60 then "high"
    else if score >=? 30 then "medium"
    else "low" in
  VObj [ ("taskId", VStr (id task));
         ("suggestedPriority", VStr suggestedPriority);
         ("reason", js_or (VStr (join ", " reasons))
                          (VStr "Based on current workload analysis"));
         ("confidence",
          VNum (Qmin 95
                  (Qmax 60 (double_add (inject_Z score) (double_mul rand 20))))) ].

Definition generateRuleBasedPrioritization (now : Z) (rnd : nat -> Q)
    (tasks : list Task) : value :=
  let suggestions := map_random (suggestion now) rnd 0 tasks in
  let insights :=
    [ VStr "Prioritization based on deadlines, time investment, and current status";
      if Nat.ltb 0 (length (filter (fun t =>
                 match dueDate t with
                 | Some due => due <? now
                 | None => false
                 end) tasks))
      then VStr "You have overdue tasks that need immediate attention"
      else VStr "No overdue tasks - good job staying on track!" ] in
  VObj [ ("suggestions", VArr suggestions); ("insights", VArr insights) ].

End Backend.

(** ** Frontend: [AIService.fallbackPrioritization] *)

Module Frontend.

Definition score_reasons (now : Z) (task : Task) : Z * list string :=
  let score := 0 in
  let reasons : list string := [] in
  let '(score, reasons) :=
    match dueDate task with
    | None => (score, reasons)
    | Some due =>
        let daysUntilDue := daysUntil now due in
        if daysUntilDue <=? 1 then (score + 40, push reasons "Due very soon")
        else if daysUntilDue <=? 3 then (score + 25, push reasons "Due within 3 days")
        else if daysUntilDue <=? 7 then (score + 15, push reasons "Due this week")
        else (score, reasons)
    end in
  let score := score + priorityWeights (priority task) in
  let '(score, reasons) :=
    if timeSpent task >? 120
    then (score + 20, push reasons "Significant time invested")
    else (score, reasons) in
  let '(score, reasons) :=
    if status_eqb (status task) InProgress
    then (score + 15, push reasons "Currently in progress")
    else (score, reasons) in
  (score, reasons).

Definition score (now : Z) (task : Task) : Z := fst (score_reasons now task).

Definition suggestion (now : Z) (rand : Q) (task : Task) : value :=
  let '(score, reasons) := score_reasons now task in
  let suggestedPriority : Priority :=
    if score >=? 60 then High
    else if score >=? 30 then Medium
    else Low in
  VObj [ ("taskId", VStr (id task));
         ("suggestedPriority", VStr (label suggestedPriority));
         ("reason", js_or (VStr (join ", " reasons))
                          (VStr "Based on current workload analysis"));
         ("confidence",
          VNum (Qmin 95
                  (Qmax 60 (double_add (inject_Z score) (double_mul rand 20))))) ].

(** The unused [projects] argument is left out. *)
Definition fallbackPrioritization (now : Z) (rnd : nat -> Q)
    (tasks : list Task) : value :=
  let suggestions := map_random (suggestion now) rnd 0 tasks in
  let insights :=
    [ VStr "Prioritization based on deadlines, time investment, and current status";
      if Nat.ltb 0 (length (filter (fun t =>
                 match dueDate t with
                 | Some due => due <? now
                 | None => false
                 end) tasks))
      then VStr "You have overdue tasks that need immediate attention"
      else VStr "No overdue tasks - good job staying on track!" ] in
  let recommendations :=
    [ VStr "Focus on high-priority items first";
      VStr "Break large tasks into smaller, manageable chunks";
      VStr "Use time-blocking to allocate focused work periods";
      VStr "Review and adjust priorities weekly" ] in
  VObj [ ("suggestions", VArr suggestions);
         ("insights", VArr insights);
         ("recommendations", VArr recommendations) ].

(** What [fetch] and [response.json()] give for the request to
    [/ai/prioritize]. *)
Inductive reply : Type :=
| NetworkError                    (* [fetch] rejects *)
| HttpError                       (* [!response.ok] *)
| Body (data : option value).     (* the parsed body; [None]: not JSON *)

(** [makeRequest]: [None] when it throws. *)
Definition makeRequest (r : reply) : option value :=
  match r with
  | NetworkError | HttpError => None
  | Body data => data
  end.

(** The [try] block of [suggestPrioritization]: [None] when it throws. *)
Definition suggestPrioritization_try (r : reply) : option value :=
  match makeRequest r with
  | None => None
  | Some data =>
      match get_prop data "suggestions" with
      | None => None
      | Some suggestions =>
          match get_prop data "insights" with
          | None => None
          | Some insights =>
              match get_prop data "recommendations" with
              | None => None
              | Some recommendations =>
                  Some (VObj [ ("suggestions", js_or suggestions (VArr []));
                               ("insights", js_or insights (VArr []));
                               ("recommendations", js_or recommendations (VArr [])) ])
              end
          end
      end
  end.

Definition suggestPrioritization (now : Z) (rnd : nat -> Q) (r : reply)
    (tasks : list Task) : value :=
  match suggestPrioritization_try r with
  | Some result => result
  | None => fallbackPrioritization now rnd tasks
  end.

End Frontend.

(** ** Backend: the [POST /prioritize] handler *)

(** The calls the handler makes, in the order it makes them. *)
Inductive event : Type :=
| FindTasks        (* [Task.find] *)
| FindProjects     (* [Project.find] *)
| RemoteModel      (* [openai.chat.completions.create] *)
| RuleBased.       (* [generateRuleBasedPrioritization] *)

Definition event_eqb (a b : event) : bool :=
  match a, b with
  | FindTasks, FindTasks | FindProjects, FindProjects
  | RemoteModel, RemoteModel | RuleBased, RuleBased => true
  | _, _ => false
  end.

(** A computation that logs its calls and either returns or throws
    ([None]). *)
Definition io (A : Type) : Type := list event * option A.

Definition ret {A : Type} (a : A) : io A := ([], Some a).

Definition bind {A B : Type} (m : io A) (k : A -> io B) : io B :=
  match m with
  | (log, Some a) => let '(log', r) := k a in ((log ++ log')%list, r)
  | (log, None) => (log, None)
  end.

(** A call to the outside, with the result the outside gives. *)
Definition call {A : Type} (e : event) (result : option A) : io A := ([e], result).

(** [try { m } catch { handler }] *)
Definition try_catch {A : Type} (m : io A) (handler : io A) : io A :=
  match m with
  | (log, Some a) => (log, Some a)
  | (log, None) => let '(log', r) := handler in ((log ++ log')%list, r)
  end.

Notation "x <- m ;; k" := (bind m (fun x => k))
  (at level 61, m at next level, right associativity).

(** What the remote model does with the prompt. *)
Inductive completion : Type :=
| CallFails                          (* the call rejects *)
| Content (parsed : option value).   (* [JSON.parse] of the content; [None]: it throws *)

(** Everything outside the handler that one request meets. *)
Record world : Type := mkWorld {
  tasks_found : option (list Task);        (* the [Task.find] of the [try] block *)
  projects_found : option unit;            (* [Project.find] *)
  model : completion;
  tasks_found_again : option (list Task);  (* the [Task.find] of the [catch] block *)
  clock : Z;                               (* [new Date()] *)
  random : nat -> Q                        (* [Math.random()] *)
}.

Record response : Type := mkResponse {
  status_code : Z;
  body : value
}.

(** [res.json(v)] *)
Definition res_json (v : value) : response := mkResponse 200 v.

Definition prioritize (w : world) : io response :=
  try_catch
    (tasks <- call FindTasks (tasks_found w) ;;
     projects <- call FindProjects (projects_found w) ;;
     if Nat.eqb (length tasks) 0 then
       ret (res_json
              (VObj [ ("suggestions", VArr []);
                      ("insights", VArr [VStr "No active tasks found to prioritize."]) ]))
     else
       content <- call RemoteModel
                    (match model w with
                     | CallFails => None
                     | Content parsed => Some parsed
                     end) ;;
       aiResponse <- try_catch
                       (([], content) : io value)
                       (call RuleBased
                          (Some (Backend.generateRuleBasedPrioritization
                                   (clock w) (random w) tasks))) ;;
       ret (res_json aiResponse))
    (try_catch
       (tasks <- call FindTasks (tasks_found_again w) ;;
        fallbackResponse <- call RuleBased
                              (Some (Backend.generateRuleBasedPrioritization
                                       (clock w) (random w) tasks)) ;;
        ret (res_json fallbackResponse))
       (ret (mkResponse 500
               (VObj [ ("message", VStr "Server error generating prioritization") ])))).

(** ** Notions the statements use *)

(** The points of the deadline rule for a number of days until the due
    date: the first branch that matches, nothing above a week. *)
Definition deadline_points (days : Z) : Z :=
  if days <=? 1 then 40
  else if days <=? 3 then 25
  else if days <=? 7 then 15
  else 0.

Definition time_points (t : Task) : Z := if 120 <? timeSpent t then 20 else 0.

Definition status_points (t : Task) : Z :=
  match status t with
  | InProgress => 15
  | _ => 0
  end.

(** The label of a suggestion follows the thresholds on the score [s]. *)
Definition label_by_thresholds (sugg : value) (s : Z) : Prop :=
  (field "suggestedPriority" sugg = VStr "high" <-> 60 <= s) /\
  (field "suggestedPriority" sugg = VStr "medium" <-> 30 <= s < 60) /\
  (field "suggestedPriority" sugg = VStr "low" <-> s < 30).

(** The suggestions of an envelope, in order. *)
Definition suggestions_of (envelope : value) : list value :=
  elements (field "suggestions" envelope).

(** The two fields of a suggestion that do not depend on the random
    source. *)
Definition priority_and_reason (sugg : value) : value * value :=
  (field "suggestedPriority" sugg, field "reason" sugg).

(** [insights[1]] *)
Definition second_insight (envelope : value) : value :=
  nth 1 (elements (field "insights" envelope)) VUndefined.

(** Two tasks with the same inputs of the heuristic; the ids may differ. *)
Definition same_scoring_inputs (t1 t2 : Task) : Prop :=
  dueDate t1 = dueDate t2 /\ priority t1 = priority t2 /\
  timeSpent t1 = timeSpent t2 /\ status t1 = status t2.

(** [t.dueDate && new Date(t.dueDate) < now] *)
Definition overdue (now : Z) (t : Task) : bool :=
  match dueDate t with
  | Some due => due <? now
  | None => false
  end.

(** Some task of the list has a due date strictly before [now] and is not
    completed. *)
Definition some_overdue (now : Z) (tasks : list Task) : Prop :=
  exists t due, In t tasks /\ dueDate t = Some due /\ due < now /\
                status t <> Completed.

(** [{ suggestions: [], insights: ['No active tasks found to prioritize.'] }] *)
Definition no_active_tasks : value :=
  VObj [ ("suggestions", VArr []);
         ("insights", VArr [VStr "No active tasks found to prioritize."]) ].

(** The calls of one run of the handler, and its response. *)
Definition calls (w : world) : list event := fst (prioritize w).

Definition sent (w : world) : option response := snd (prioritize w).

(** A world where the first query finds no task. *)
Definition empty_world (projects : option unit) : world :=
  mkWorld (Some []) projects CallFails (Some []) 0 (fun _ => 0%Q).

(** What the returned object holds under key [k], given the reply [data]:
    the reply's field when it is truthy and the empty list otherwise; so
    never a falsy value, and a list whenever the reply's field is falsy,
    missing or a list. *)
Definition field_defaulted (k : string) (data result : value) : Prop :=
  field k result = (if truthy (field k data) then field k data else VArr []) /\
  truthy (field k result) = true /\
  (truthy (field k data) = false \/ is_array (field k data) = true ->
   is_array (field k result) = true).

(** * The rest of the routes and of the frontend service

    The sections below extend the embedding to the code around the
    prioritisation: the component that applies a suggestion, the weekly and
    daily jobs, the timer routes and the daily review of the backend, the
    other methods of [AIService], the date helpers of the task card and the
    pages of the task list. The database is a list of documents with the
    fields a route reads or writes, and a request runs at one instant
    [now]. *)

(** ** Further notions: the rules that fire, and applying a suggestion *)

(** What one rule adds when it fires: its points and its reason. *)
Definition rule_outcome : Type := (Z * list string)%type.

(** The outcomes of the deadline rule, of the time rule and of the status
    rule: nothing, or the points and the reason of the branch that fires. *)
Definition deadline_outcomes : list rule_outcome :=
  [ (0, []); (40, ["Due very soon"]); (25, ["Due within 3 days"]);
    (15, ["Due this week"]) ].

Definition time_outcomes : list rule_outcome :=
  [ (0, []); (20, ["Significant time invested"]) ].

Definition status_outcomes : list rule_outcome :=
  [ (0, []); (15, ["Currently in progress"]) ].

(** Every way the three rules can fire together: the points they add to
    the priority weight and the reasons they push, in the order of the
    rules. *)
Definition rule_table : list rule_outcome :=
  flat_map (fun d =>
    flat_map (fun t =>
      map (fun s => (fst d + fst t + fst s, (snd d ++ snd t ++ snd s)%list))
          status_outcomes)
      time_outcomes)
    deadline_outcomes.

(** No rule fires for the task: no due date within a week, at most 120
    minutes spent, not in progress. *)
Definition no_rule_fires_for (now : Z) (t : Task) : Prop :=
  match dueDate t with
  | Some due => 7 * MS_PER_DAY < due - now
  | None => True
  end /\ timeSpent t <= 120 /\ status t <> InProgress.

(** The priority that the label of a suggestion names. *)
Definition suggested (sugg : value) : option Priority :=
  match field "suggestedPriority" sugg with
  | VStr "high" => Some High
  | VStr "medium" => Some Medium
  | VStr "low" => Some Low
  | _ => None
  end.

(** [{ ...task, ...{ priority: p } }], on the fields the prioritisation
    reads: what [updateTask(taskId, { priority: p })] makes of a task with
    that id (it also stamps [updatedAt], which the prioritisation does not
    read). *)
Definition with_priority (task : Task) (p : Priority) : Task :=
  mkTask (id task) p (status task) (dueDate task) (timeSpent task).

(** ** Frontend: the task list of [App] and the suggestions applied to it *)

Definition priority_eqb (a b : Priority) : bool :=
  match a, b with
  | Low, Low | Medium, Medium | High, High => true
  | _, _ => false
  end.

Module App.

(** [interface Task] of [types/index.ts], with every field. The dates are
    the ISO strings that the frontend stores. *)
Record Task : Type := mkTask {
  id : string;
  title : string;
  description : string;
  projectId : string;
  priority : Priority;
  status : Status;
  dueDate : option string;        (* [string | null] *)
  createdAt : string;
  updatedAt : string;
  timeSpent : Z;                  (* in minutes *)
  isTimerRunning : bool;
  timerStartTime : option Z       (* [number | null] *)
}.

(** [Partial<Task>]: for each key the value that the object has for it,
    [None] when the object does not have the key. *)
Record Updates : Type := mkUpdates {
  set_id : option string;
  set_title : option string;
  set_description : option string;
  set_projectId : option string;
  set_priority : option Priority;
  set_status : option Status;
  set_dueDate : option (option string);
  set_createdAt : option string;
  set_updatedAt : option string;
  set_timeSpent : option Z;
  set_isTimerRunning : option bool;
  set_timerStartTime : option (option Z)
}.

(** One key of [{ ...task, ...updates }]. *)
Definition spread {A : Type} (old : A) (update : option A) : A :=
  match update with
  | Some v => v
  | None => old
  end.

(** [{ ...task, ...updates, updatedAt: new Date().toISOString() }], with
    [stamp] the string that [toISOString()] returns. *)
Definition merged (task : Task) (updates : Updates) (stamp : string) : Task :=
  mkTask (spread (id task) (set_id updates))
         (spread (title task) (set_title updates))
         (spread (description task) (set_description updates))
         (spread (projectId task) (set_projectId updates))
         (spread (priority task) (set_priority updates))
         (spread (status task) (set_status updates))
         (spread (dueDate task) (set_dueDate updates))
         (spread (createdAt task) (set_createdAt updates))
         stamp
         (spread (timeSpent task) (set_timeSpent updates))
         (spread (isTimerRunning task) (set_isTimerRunning updates))
         (spread (timerStartTime task) (set_timerStartTime updates)).

(** The state update of [updateTask(taskId, updates)],
    [prev => prev.map(task => task.id === taskId ? { ... } : task)].
    [new Date()] is read once for each task that has the id: [clock k] is
    the ISO string of the k-th reading. *)
Fixpoint updateTask (clock : nat -> string) (taskId : string)
    (updates : Updates) (prev : list Task) : list Task :=
  match prev with
  | [] => []
  | task :: rest =>
      if String.eqb (id task) taskId
      then merged task updates (clock O)
             :: updateTask (fun k => clock (S k)) taskId updates rest
      else task :: updateTask clock taskId updates rest
  end.

(** [{ priority: suggestedPriority }] *)
Definition priority_only (suggestedPriority : Priority) : Updates :=
  mkUpdates None None None None (Some suggestedPriority) None None None None
            None None None.

(** [handleApplySuggestion(taskId, suggestedPriority)] of the
    [AIPrioritization] component, on the task list of [App] (its
    [onUpdateTask] is the [updateTask] of [App]) and on the component's
    set [appliedSuggestions], a list without repetition in the order of
    insertion: [onUpdateTask(taskId, { priority: suggestedPriority })] and
    [setAppliedSuggestions(prev => new Set([...prev, taskId]))]. *)
Definition handleApplySuggestion (clock : nat -> string) (taskId : string)
    (suggestedPriority : Priority)
    (tasks : list Task) (appliedSuggestions : list string)
    : list Task * list string :=
  (updateTask clock taskId (priority_only suggestedPriority) tasks,
   if existsb (String.eqb taskId) appliedSuggestions
   then appliedSuggestions
   else (appliedSuggestions ++ [taskId])%list).

(** [tasks.find(t => t.id === taskId)] *)
Definition find_task (taskId : string) (tasks : list Task) : option Task :=
  find (fun t => String.eqb (id t) taskId) tasks.

(** Whether the [AIPrioritization] component shows a suggestion:
    [const task = tasks.find(t => t.id === suggestion.taskId);
     const isDifferent = task && task.priority !== suggestion.suggestedPriority;
     if (!task || !isDifferent) return null;] for a suggestion whose task id
    is [taskId] and whose label names [p]. *)
Definition shown (tasks : list Task) (taskId : string) (p : Priority) : bool :=
  match find_task taskId tasks with
  | Some task => negb (priority_eqb (priority task) p)
  | None => false
  end.

(** The number of tasks with the id [taskId] among the first [n]. *)
Definition matches_before (taskId : string) (n : nat) (tasks : list Task)
    : nat :=
  length (filter (fun t => String.eqb (id t) taskId) (firstn n tasks)).

End App.

(** The fields of a frontend task that the prioritisation reads;
    [due_time] is the time value that it reads off the due date. *)
Definition scoring_view (due_time : option string -> option Z)
    (t : App.Task) : Task :=
  mkTask (App.id t) (App.priority t) (App.status t)
         (due_time (App.dueDate t)) (App.timeSpent t).

(** ** Further notions: the paths of the [POST /prioritize] handler *)

(** The [try] block of the handler throws: a query rejects, or the list is
    not empty and the call of the remote model rejects. (A reply that does
    not parse is caught inside the block.) *)
Definition try_block_throws (w : world) : Prop :=
  tasks_found w = None \/
  projects_found w = None \/
  (exists tasks, tasks_found w = Some tasks /\ tasks <> [] /\
                 model w = CallFails).

(** The handler reaches the remote model: both queries succeed and the
    first one finds a task. *)
Definition reaches_model (w : world) (tasks : list Task) : Prop :=
  tasks_found w = Some tasks /\ tasks <> [] /\ projects_found w = Some tt.

(** ** The weekly job: its priority score *)

Module Jobs.

(** The body of the loop of the weekly analytics update, for one task:
    [priorityScore] as it is stored in [aiInsights.priorityScore]. [now] is
    the [new Date()] of that iteration. *)
Definition priorityScore (now : Z) (task : Task) : Z :=
  let priorityScore := 0 in
  let priorityScore :=
    match dueDate task with
    | Some due =>
        let daysUntilDue := daysUntil now due in
        if daysUntilDue <=? 1 then priorityScore + 40
        else if daysUntilDue <=? 3 then priorityScore + 25
        else if daysUntilDue <=? 7 then priorityScore + 15
        else priorityScore
    | None => priorityScore
    end in
  let priorityScore :=
    match priority task with
    | High => priorityScore + 30
    | Medium => priorityScore + 15
    | _ => priorityScore + 5
    end in
  let priorityScore :=
    if timeSpent task >? 120 then priorityScore + 20 else priorityScore in
  let priorityScore :=
    if status_eqb (status task) InProgress
    then priorityScore + 15 else priorityScore in
  priorityScore.

End Jobs.

(** ** Backend: the timer routes *)

Module Timer.

(** [timerSessions: [{ startTime, endTime, duration, type }]]; the routes
    only write ['work'] sessions. *)
Record Session : Type := mkSession {
  startTime : Z;
  endTime : Z;
  duration : Z;         (* in minutes *)
  type : string
}.

(** An [ObjectId], as the string of its 24 hexadecimal digits. *)
Definition ObjectId : Type := string.

(** The fields of a task document that the timer routes name, in a filter
    or in an update ([updatedAt], which Mongoose stamps on every update, is
    not among them). *)
Record Doc : Type := mkDoc {
  _id : ObjectId;
  userId : string;
  status : Status;
  timeSpent : Z;
  isTimerRunning : bool;
  timerStartTime : option Z;      (* [None]: unset *)
  timerSessions : list Session
}.

(** The collection, in its natural order. *)
Definition collection : Type := list Doc.

(** [Task.updateMany(filter, update)] *)
Definition updateMany (filter : Doc -> bool) (update : Doc -> Doc)
    (db : collection) : collection :=
  map (fun d => if filter d then update d else d) db.

(** [Task.findOne(filter)] *)
Definition findOne (filter : Doc -> bool) (db : collection) : option Doc :=
  find filter db.

(** [Task.findOneAndUpdate(filter, update, { new: true })]: the first
    document that matches is updated and returned as updated. *)
Fixpoint findOneAndUpdate (filter : Doc -> bool) (update : Doc -> Doc)
    (db : collection) : option Doc * collection :=
  match db with
  | [] => (None, [])
  | d :: rest =>
      if filter d then (Some (update d), update d :: rest)
      else let '(found, rest') := findOneAndUpdate filter update rest in
           (found, d :: rest')
  end.

(** [Task.findByIdAndUpdate(id, update, { new: true })] *)
Definition findByIdAndUpdate (id : ObjectId) (update : Doc -> Doc)
    (db : collection) : option Doc * collection :=
  findOneAndUpdate (fun d => String.eqb (_id d) id) update db.

(** What a route answers: the status, the message, and the task and the
    session duration when the body has them. *)
Record reply : Type := mkReply {
  code : Z;
  message : string;
  task : option Doc;
  sessionDuration : option Z
}.

(** What the database does with the calls of one request: whether the
    first and the second query reject, in which case they write nothing,
    and whether the [populate] chained to the second query rejects, which
    happens once that query has written its update. *)
Record faults : Type := mkFaults {
  first_rejects : bool;
  second_rejects : bool;
  populate_rejects : bool
}.

Definition no_faults : faults := mkFaults false false false.

(** [{ $set: { isTimerRunning: false }, $unset: { timerStartTime: 1 } }] *)
Definition halt (d : Doc) : Doc :=
  mkDoc (_id d) (userId d) (status d) (timeSpent d) false None
        (timerSessions d).

(** [{ isTimerRunning: true, timerStartTime: new Date(), status:
    'in-progress' }] *)
Definition run (now : Z) (d : Doc) : Doc :=
  mkDoc (_id d) (userId d) InProgress (timeSpent d) true (Some now)
        (timerSessions d).

Section Routes.

(** The cast of the [:id] of the request to the [ObjectId] of the filter
    [{ _id: req.params.id }]: [None] when the string is not one that
    Mongoose casts, and then the query rejects without reaching the
    database. *)
Variable cast : string -> option ObjectId.

(** [router.post('/:id/timer/start')] for the user [user] and the task id
    [id] at time [now]: the reply and the collection afterwards. *)
Definition start (f : faults) (user id : string) (now : Z) (db : collection)
    : reply * collection :=
  (* Stop any currently running timers for this user *)
  if first_rejects f
  then (mkReply 500 "Server error starting timer" None None, db)
  else
    let db := updateMany
                (fun d => String.eqb (userId d) user && isTimerRunning d)
                halt db in
    (* Start timer for this task *)
    match cast id with
    | None => (mkReply 500 "Server error starting timer" None None, db)
    | Some oid =>
        if second_rejects f
        then (mkReply 500 "Server error starting timer" None None, db)
        else
          let '(task, db) :=
            findOneAndUpdate
              (fun d => String.eqb (_id d) oid && String.eqb (userId d) user)
              (run now) db in
          match task with
          | None => (mkReply 404 "Task not found" None None, db)
          | Some task =>
              (* [.populate('projectId', 'name color')], on the task found *)
              if populate_rejects f
              then (mkReply 500 "Server error starting timer" None None, db)
              else (mkReply 200 "Timer started successfully" (Some task) None,
                    db)
          end
    end.

(** [{ $set: { isTimerRunning: false, timeSpent: ... }, $unset: {
    timerStartTime: 1 }, $push: { timerSessions: session } }] *)
Definition record_session (spent : Z) (session : Session) (d : Doc) : Doc :=
  mkDoc (_id d) (userId d) (status d) spent false None
        (timerSessions d ++ [session]).

(** [router.post('/:id/timer/stop')] *)
Definition stop (f : faults) (user id : string) (now : Z) (db : collection)
    : reply * collection :=
  match cast id with
  | None => (mkReply 500 "Server error stopping timer" None None, db)
  | Some oid =>
      if first_rejects f
      then (mkReply 500 "Server error stopping timer" None None, db)
      else
        match findOne (fun d => String.eqb (_id d) oid
                                && String.eqb (userId d) user
                                && isTimerRunning d) db with
        | None =>
            (mkReply 404 "Task not found or timer not running" None None, db)
        | Some task =>
            match timerStartTime task with
            | None =>
                (* [task.timerStartTime.getTime()] throws *)
                (mkReply 500 "Server error stopping timer" None None, db)
            | Some started =>
                (* Calculate time spent, in minutes *)
                let timeElapsed := (now - started) / 60000 in
                (* Create timer session record *)
                let session := mkSession started now timeElapsed "work" in
                (* Update task *)
                if second_rejects f
                then (mkReply 500 "Server error stopping timer" None None, db)
                else
                  let '(updatedTask, db) :=
                    findByIdAndUpdate oid
                      (record_session (timeSpent task + timeElapsed) session)
                      db in
                  match updatedTask with
                  | Some _ =>
                      (* [.populate('projectId', 'name color')] *)
                      if populate_rejects f
                      then (mkReply 500 "Server error stopping timer" None
                                    None, db)
                      else (mkReply 200 "Timer stopped successfully"
                                    updatedTask (Some timeElapsed), db)
                  | None =>
                      (mkReply 200 "Timer stopped successfully" updatedTask
                               (Some timeElapsed), db)
                  end
            end
        end
  end.

End Routes.

(** The timers of the user [user] that run. *)
Definition running (user : string) (db : collection) : list Doc :=
  filter (fun d => String.eqb (userId d) user && isTimerRunning d) db.

(** For the examples: a cast that accepts the strings of 24 characters. *)
Definition cast_of_length_24 (s : string) : option ObjectId :=
  if Nat.eqb (String.length s) 24 then Some s else None.

End Timer.

(** ** The daily job: stuck timers *)

Module Cleanup.

Import Timer.




(** The update of one stuck timer, as in the stop route. *)
Definition close (now : Z) (task : Doc) (started : Z) : Doc -> Doc :=
  let timeElapsed := (now - started) / 60000 in
  record_session (timeSpent task + timeElapsed)
                 (mkSession started now timeElapsed "work").



(** What the job makes of a stuck task: the update computed from the task
    itself. *)
Definition closed (now : Z) (d : Doc) : Doc :=
  match timerStartTime d with
  | Some started => close now d started d
  | None => d
  end.

End Cleanup.

(** ** Backend: the daily review *)

From Stdlib Require Import Ascii DecimalString.

(** [`${n}`] for an integer [n]: its decimal digits, with a minus sign
    when it is negative. *)
Definition show (n : Z) : string := NilZero.string_of_int (Z.to_int n).

(** The double quote character, as a string. *)
Definition DQUOTE : string := String "034"%char EmptyString.

Module Review.

(** A task document as the daily review reads it: its title, the name of
    its populated project ([task.projectId?.name]), and the fields of
    [Task]. *)
Record Doc : Type := mkDoc {
  title : string;
  projectName : option string;
  fields : Task
}.

Module Data.

(** An entry of [reviewData.completedTasks]. *)
Record Entry : Type := mkEntry {
  title : string;
  project : option string;
  timeSpent : Z
}.

(** [reviewData] *)
Record t : Type := mk {
  date : string;
  tasksWorkedOn : Z;
  tasksCompleted : Z;
  totalFocusTime : Z;
  completedTasks : list Entry;
  pendingHighPriority : Z;
  overdueCount : Z
}.

End Data.

(** [array.length] *)
Definition len {A : Type} (l : list A) : Z := Z.of_nat (length l).

(** The [reviewData] that the handler builds from [tasks] (the tasks
    updated today), [allTasks] and [today]; [date] is
    [today.toISOString().split('T')[0]]. *)
Definition reviewData (date : string) (today : Z) (tasks allTasks : list Doc)
    : Data.t :=
  let completedToday :=
    filter (fun t => status_eqb (status (fields t)) Completed) tasks in
  let totalTimeToday :=
    fold_left (fun acc task => acc + timeSpent (fields task)) tasks 0 in
  Data.mk date
    (len tasks)
    (len completedToday)
    totalTimeToday
    (map (fun t => Data.mkEntry (title t) (projectName t) (timeSpent (fields t)))
         completedToday)
    (len (filter (fun t => match priority (fields t) with High => true | _ => false end
                           && negb (status_eqb (status (fields t)) Completed))
                 allTasks))
    (len (filter (fun t => match dueDate (fields t) with
                           | Some due => due <? today
                           | None => false
                           end
                           && negb (status_eqb (status (fields t)) Completed))
                 allTasks)).

(** [array.slice(0, 3)] *)
Definition slice_0_3 {A : Type} (l : list A) : list A := firstn 3 l.

(** Fallback rule-based daily review. *)
Definition generateRuleBasedDailyReview (data : Data.t) : value :=
  VObj [
    ("summary",
     VStr ("Today you worked on " ++ show (Data.tasksWorkedOn data)
           ++ " tasks and completed " ++ show (Data.tasksCompleted data)
           ++ ". You spent " ++ show (Data.totalFocusTime data / 60)
           ++ " hours in focused work."));
    ("achievements",
     VArr (map (fun t => VStr ("âœ… Completed " ++ DQUOTE ++ Data.title t ++ DQUOTE))
               (slice_0_3 (Data.completedTasks data))));
    ("recommendations",
     VArr [ if Data.totalFocusTime data >? 300
            then VStr "Great focus time today!"
            else VStr "Consider longer focus sessions tomorrow";
            if Data.tasksCompleted data >? 3
            then VStr "Excellent task completion rate!"
            else VStr "Try breaking larger tasks into smaller chunks" ]);
    ("tomorrowFocus",
     VArr [ VStr "Focus on high-priority items";
            VStr "Review overdue tasks";
            VStr "Plan your most important work" ]);
    ("motivationalNote",
     VStr "Every step forward is progress. Keep up the great work!") ].

(** Everything outside the handler that one request meets. *)
Record world : Type := mkWorld {
  tasks_today : option (list Doc);   (* [Task.find] with [updatedAt >= startOfDay] *)
  all_tasks : option (list Doc);     (* [Task.find({ userId })] *)
  projects : option unit;            (* [Project.find] *)
  reply : completion;                (* the remote model *)
  today : Z;                         (* [new Date()] *)
  today_date : string                (* [today.toISOString().split('T')[0]] *)
}.

(** [router.post('/daily-review')] *)
Definition daily_review (w : world) : io response :=
  try_catch
    (tasks <- call FindTasks (tasks_today w) ;;
     allTasks <- call FindTasks (all_tasks w) ;;
     projects <- call FindProjects (projects w) ;;
     let reviewData := reviewData (today_date w) (today w) tasks allTasks in
     content <- call RemoteModel
                  (match reply w with
                   | CallFails => None
                   | Content parsed => Some parsed
                   end) ;;
     aiResponse <- try_catch
                     (([], content) : io value)
                     (call RuleBased
                        (Some (generateRuleBasedDailyReview reviewData))) ;;
     ret (res_json aiResponse))
    (ret (mkResponse 500
            (VObj [ ("message", VStr "Server error generating daily review") ]))).

End Review.

(** ** Frontend: the other methods of [AIService] *)

Module AIService.

(** A task of the frontend as the daily review reads it: its title, the
    time value of [updatedAt], and the fields of [Task]. *)
Record AppTask : Type := mkAppTask {
  title : string;
  updatedAt : Z;
  fields : Task
}.

(** [suggestTasks(projectId, context)], given what the request to
    [/ai/suggest-tasks] brings back. *)
Definition suggestTasks (r : Frontend.reply) : value :=
  match
    match Frontend.makeRequest r with
    | None => None
    | Some data =>
        match get_prop data "suggestions" with
        | None => None
        | Some suggestions =>
            Some (VObj [ ("suggestions", js_or suggestions (VArr [])) ])
        end
    end
  with
  | Some result => result
  | None => VObj [ ("suggestions", VArr []) ]
  end.

(** [t.status !== 'completed' && t.priority === 'high'] *)
Definition is_high_and_open (t : AppTask) : bool :=
  negb (status_eqb (status (fields t)) Completed)
  && match priority (fields t) with
     | High => true
     | _ => false
     end.

Section DailyReview.

(** [new Date(t).toDateString()]: the calendar day of a time value in the
    local time zone. *)
Variable toDateString : Z -> string.

(** [fallbackDailyReview(tasks, projects)] at time [now]. *)
Definition fallbackDailyReview (now : Z) (tasks : list AppTask) : value :=
  let today := toDateString now in
  let todayTasks :=
    filter (fun task => String.eqb (toDateString (updatedAt task)) today)
           tasks in
  let completedToday :=
    filter (fun task => status_eqb (status (fields task)) Completed)
           todayTasks in
  let totalTimeToday :=
    fold_left (fun acc task => acc + timeSpent (fields task)) todayTasks 0 in
  VObj [
    ("summary",
     VStr ("Today you completed " ++ show (Z.of_nat (length completedToday))
           ++ " task"
           ++ (if negb (Nat.eqb (length completedToday) 1) then "s" else "")
           ++ " and spent " ++ show (totalTimeToday / 60) ++ "h "
           ++ show (Z.rem totalTimeToday 60) ++ "m on focused work."));
    ("achievements",
     VArr (map (fun t => VStr ("âœ… Completed " ++ DQUOTE ++ title t ++ DQUOTE))
               (firstn 3 completedToday)));
    ("recommendations",
     VArr [ if totalTimeToday >? 300
            then VStr "Great focus time today!"
            else VStr "Consider longer focus sessions tomorrow";
            if Nat.ltb 3 (length completedToday)
            then VStr "Excellent task completion rate!"
            else VStr "Try breaking larger tasks into smaller chunks";
            VStr "Plan your most important work for your peak energy hours" ]);
    ("tomorrowFocus",
     VArr (map (fun t => VStr (title t))
               (firstn 3 (filter is_high_and_open tasks))));
    ("motivationalNote",
     VStr "Every step forward is progress. Keep up the great work!") ].

(** [generateDailyReview(tasks, projects)], given what the request to
    [/ai/daily-review] brings back. *)
Definition generateDailyReview (now : Z) (r : Frontend.reply)
    (tasks : list AppTask) : value :=
  match
    match Frontend.makeRequest r with
    | None => None
    | Some data =>
        match get_prop data "summary" with
        | None => None
        | Some summary =>
        match get_prop data "achievements" with
        | None => None
        | Some achievements =>
        match get_prop data "recommendations" with
        | None => None
        | Some recommendations =>
        match get_prop data "tomorrowFocus" with
        | None => None
        | Some tomorrowFocus =>
        match get_prop data "motivationalNote" with
        | None => None
        | Some motivationalNote =>
            Some (VObj [
              ("summary", js_or summary (VStr ""));
              ("achievements", js_or achievements (VArr []));
              ("recommendations", js_or recommendations (VArr []));
              ("tomorrowFocus", js_or tomorrowFocus (VArr []));
              ("motivationalNote",
               js_or motivationalNote (VStr "Keep up the great work!")) ])
        end end end end end
    end
  with
  | Some result => result
  | None => fallbackDailyReview now tasks
  end.

End DailyReview.

End AIService.

(** ** Further notions: the two daily reviews side by side *)

(** A task of the frontend and a task document of the backend with the
    same title, status and time spent; the ids may differ. *)
Definition same_review_task (a : AIService.AppTask) (d : Review.Doc) : Prop :=
  AIService.title a = Review.title d /\
  status (AIService.fields a) = status (Review.fields d) /\
  timeSpent (AIService.fields a) = timeSpent (Review.fields d).

(** ** Frontend: [utils/dateUtils.ts] *)

Module DateUtils.

Section Locale.

(** [date.toLocaleDateString('en-US', { month: 'short', day: 'numeric',
    year: withYear ? 'numeric' : undefined })] *)
Variable toLocaleDateString : Z -> bool -> string.

(** [date.getFullYear()] *)
Variable getFullYear : Z -> Z.

(** The time value of [now] after [now.setHours(23, 59, 59, 999)]: the
    last millisecond of the local day of [now]. *)
Variable endOfDay : Z -> Z.

(** [formatDate(dateString)] at time [now], for the time value [date] of a
    valid date string. *)
Definition formatDate (now date : Z) : string :=
  let diffTime := date - now in
  let diffDays := Qceiling (inject_Z diffTime / inject_Z MS_PER_DAY) in
  if diffDays =? 0 then "Today"
  else if diffDays =? 1 then "Tomorrow"
  else if diffDays =? -1 then "Yesterday"
  else if (0 <? diffDays) && (diffDays <=? 7)
       then "In " ++ show diffDays ++ " days"
  else if (diffDays <? 0) && (-7 <=? diffDays)
       then show (Z.abs diffDays) ++ " days ago"
  else toLocaleDateString date
         (negb (getFullYear date =? getFullYear now)).

(** [isOverdue(dateString)] at time [now]. *)
Definition isOverdue (now date : Z) : bool := date <? endOfDay now.

End Locale.

End DateUtils.

(** ** Backend: the pages of [GET /] *)

Module TaskList.

(** [pagination] in the body of the answer. *)
Record pagination : Type := mkPagination {
  current : Z;
  pages : Z;
  total : Z;
  limit : Z
}.

(** [const { page = 1, limit = 50 } = req.query] *)
Definition or_default (given : option Z) (default : Z) : Z :=
  match given with
  | Some n => n
  | None => default
  end.

(** The answer of [router.get('/')] once the query is validated and when
    the database does not fail. [matching] is what [Task.find(query)
    .sort(sort)] holds before [limit] and [skip] apply, so that
    [Task.countDocuments(query)] is its length; [page] and [limit] are the
    validated integers of the query string, when given. *)
Definition list_tasks {A : Type} (page limit : option Z) (matching : list A)
    : list A * pagination :=
  let page := or_default page 1 in
  let limit := or_default limit 50 in
  let tasks :=
    firstn (Z.to_nat (limit * 1))
           (skipn (Z.to_nat ((page - 1) * limit)) matching) in
  let total := Z.of_nat (length matching) in
  (tasks,
   mkPagination page (Qceiling (inject_Z total / inject_Z limit)) total limit).

(** The pages from 1 to [n], one after the other. *)
Definition all_pages {A : Type} (n : nat) (limit : Z) (matching : list A)
    : list A :=
  concat (map (fun i => fst (list_tasks (Some (Z.of_nat i + 1)) (Some limit)
                                        matching))
              (seq 0 n)).

End TaskList.

(** ** Runs on concrete inputs *)

Example backend_concrete :
  Backend.suggestion 1000 (1 # 2)
    (mkTask "t1" Medium InProgress (Some (1000 + 2 * MS_PER_DAY)) 150)
  = VObj [ ("taskId", VStr "t1");
           ("suggestedPriority", VStr "high");
           ("reason", VStr "Due within 3 days, Significant time invested, Currently in progress");
           ("confidence", VNum 85) ].
Proof. reflexivity. Qed.

Example frontend_concrete :
  Frontend.suggestion 1000 (1 # 2)
    (mkTask "t1" Medium InProgress (Some (1000 + 2 * MS_PER_DAY)) 150)
  = Backend.suggestion 1000 (1 # 2)
    (mkTask "t1" Medium InProgress (Some (1000 + 2 * MS_PER_DAY)) 150).
Proof. reflexivity. Qed.

Example no_rule_fires :
  Backend.suggestion 0 0 (mkTask "t2" Low Todo None 0)
  = VObj [ ("taskId", VStr "t2");
           ("suggestedPriority", VStr "low");
           ("reason", VStr "Based on current workload analysis");
           ("confidence", VNum 60) ].
Proof. reflexivity. Qed.

(** ** The number of days until the due date *)

Lemma MS_PER_DAY_value : MS_PER_DAY = 86400000.
Proof. reflexivity. Qed.

(** [daysUntil] with the quotient taken in the integers. *)
Lemma daysUntil_div (now due : Z) :
  daysUntil now due = - ((- (due - now)) / MS_PER_DAY).
Proof.
  unfold daysUntil, Qceiling, Qfloor, Qdiv, Qmult, Qinv, Qopp, inject_Z.
  simpl. rewrite Z.mul_1_r. reflexivity.
Qed.

(** [daysUntil now due] is the ceiling of [(due - now) / MS_PER_DAY]: the
    one integer [d] with [d - 1 < (due - now) / MS_PER_DAY <= d]. *)
Lemma daysUntil_spec (now due d : Z) :
  daysUntil now due = d <->
  (d - 1) * MS_PER_DAY < due - now <= d * MS_PER_DAY.
Proof.
  rewrite daysUntil_div, MS_PER_DAY_value.
  pose proof (Z.div_mod (- (due - now)) 86400000 ltac:(lia)) as Hdm.
  pose proof (Z.mod_pos_bound (- (due - now)) 86400000 ltac:(lia)) as Hr.
  lia.
Qed.

Lemma daysUntil_le (now due k : Z) :
  daysUntil now due <= k <-> due - now <= k * MS_PER_DAY.
Proof.
  pose proof (proj1 (daysUntil_spec now due _) eq_refl) as H.
  rewrite MS_PER_DAY_value in *. lia.
Qed.

(** [daysUntil] does not decrease when the due date moves away. *)
Lemma daysUntil_mono (now due due' : Z) :
  due <= due' -> daysUntil now due <= daysUntil now due'.
Proof.
  intros H. apply daysUntil_le.
  pose proof (proj1 (daysUntil_spec now due' _) eq_refl). lia.
Qed.

Lemma daysUntil_whole_days (now k : Z) :
  daysUntil now (now + k * MS_PER_DAY) = k.
Proof. apply daysUntil_spec. rewrite MS_PER_DAY_value. lia. Qed.

(** ** The score, rule by rule *)

Lemma backend_score_sum (now : Z) (t : Task) :
  Backend.score now t =
  match dueDate t with
  | Some due => deadline_points (daysUntil now due)
  | None => 0
  end + priorityWeights (priority t) + time_points t + status_points t.
Proof.
  unfold Backend.score, Backend.score_reasons, deadline_points, time_points,
    status_points.
  destruct (dueDate t) as [due|].
  - destruct (daysUntil now due <=? 1); [| destruct (daysUntil now due <=? 3);
      [| destruct (daysUntil now due <=? 7)]];
    rewrite Z.gtb_ltb; destruct (120 <? timeSpent t);
    destruct (status t); simpl; lia.
  - rewrite Z.gtb_ltb; destruct (120 <? timeSpent t);
    destruct (status t); simpl; lia.
Qed.

Lemma frontend_score_reasons (now : Z) (t : Task) :
  Frontend.score_reasons now t = Backend.score_reasons now t.
Proof. reflexivity. Qed.

Lemma frontend_score (now : Z) (t : Task) :
  Frontend.score now t = Backend.score now t.
Proof. reflexivity. Qed.

Lemma score_bounds (now : Z) (t : Task) : 5 <= Backend.score now t <= 105.
Proof.
  rewrite backend_score_sum.
  unfold deadline_points, time_points, status_points.
  destruct (dueDate t) as [due|];
    repeat match goal with
           | |- context [if ?b then _ else _] => destruct b
           end;
    destruct (priority t); destruct (status t); simpl; lia.
Qed.

Lemma backend_label (now : Z) (rand : Q) (t : Task) :
  field "suggestedPriority" (Backend.suggestion now rand t) =
  VStr (if 60 <=? Backend.score now t then "high"
        else if 30 <=? Backend.score now t then "medium" else "low").
Proof.
  unfold Backend.suggestion, Backend.score.
  destruct (Backend.score_reasons now t) as [s rs]. simpl fst.
  rewrite !Z.geb_leb. reflexivity.
Qed.

Lemma frontend_label (now : Z) (rand : Q) (t : Task) :
  field "suggestedPriority" (Frontend.suggestion now rand t) =
  field "suggestedPriority" (Backend.suggestion now rand t).
Proof.
  unfold Frontend.suggestion, Backend.suggestion.
  rewrite frontend_score_reasons.
  destruct (Backend.score_reasons now t) as [s rs].
  destruct (s >=? 60); [reflexivity |]. destruct (s >=? 30); reflexivity.
Qed.

Lemma frontend_reason (now : Z) (rand rand' : Q) (t : Task) :
  field "reason" (Frontend.suggestion now rand t) =
  field "reason" (Backend.suggestion now rand' t).
Proof.
  unfold Frontend.suggestion, Backend.suggestion.
  rewrite frontend_score_reasons.
  destruct (Backend.score_reasons now t) as [s rs]. reflexivity.
Qed.

(** ** The claims about the score *)

Lemma backend_label_by_thresholds (now : Z) (rand : Q) (t : Task) :
  label_by_thresholds (Backend.suggestion now rand t) (Backend.score now t).
Proof.
  unfold label_by_thresholds. rewrite backend_label.
  destruct (Z.leb_spec 60 (Backend.score now t));
    [| destruct (Z.leb_spec 30 (Backend.score now t))];
    repeat split; intros; try reflexivity; try lia; try discriminate.
Qed.

(** C1. For every task (its priority is one of low, medium, high by type)
    and every [now], the score that both implementations compute is the sum
    of: the deadline contribution, present only when the due date is set,
    where [daysUntilDue] is the ceiling of [(dueDate - now) / 1 day] and the
    first matching branch of ([<= 1]: 40, [<= 3]: 25, [<= 7]: 15) gives the
    points, nothing above 7; the priority weight (high 30, medium 15, low 5);
    20 if [timeSpent > 120]; 15 if the status is in-progress. The label of
    the suggestion is high iff [score >= 60], medium iff [30 <= score < 60],
    low iff [score < 30]. *)
Theorem score_sum_of_rules_and_label (now : Z) (rand : Q) (task : Task) :
  let score := Backend.score now task in
  Frontend.score now task = score /\
  (exists deadline : Z,
      match dueDate task with
      | None => deadline = 0
      | Some due =>
          exists daysUntilDue : Z,
            (daysUntilDue - 1) * MS_PER_DAY < due - now
              <= daysUntilDue * MS_PER_DAY /\
            deadline = (if daysUntilDue <=? 1 then 40
                        else if daysUntilDue <=? 3 then 25
                        else if daysUntilDue <=? 7 then 15
                        else 0)
      end /\
      score = deadline
              + match priority task with High => 30 | Medium => 15 | Low => 5 end
              + (if 120 <? timeSpent task then 20 else 0)
              + match status task with InProgress => 15 | _ => 0 end) /\
  label_by_thresholds (Backend.suggestion now rand task) score /\
  label_by_thresholds (Frontend.suggestion now rand task) score.
Proof.
  cbv zeta. split; [apply frontend_score |]. split.
  - rewrite backend_score_sum.
    destruct (dueDate task) as [due|].
    + exists (deadline_points (daysUntil now due)). split; [| reflexivity].
      exists (daysUntil now due). split; [| reflexivity].
      apply daysUntil_spec. reflexivity.
    + exists 0. split; reflexivity.
  - split.
    + apply backend_label_by_thresholds.
    + unfold label_by_thresholds. rewrite frontend_label.
      apply backend_label_by_thresholds.
Qed.

(** C7 as the specification states it fails: a task due in exactly one day
    with priority high and 150 minutes spent scores 90, not 70. *)
Lemma due_in_one_day_score_not_always_70 :
  ~ (forall (now : Z) (rand : Q) (task : Task),
        dueDate task = Some (now + 1 * MS_PER_DAY) ->
        priority task = High ->
        Backend.score now task = 70 /\
        field "suggestedPriority" (Backend.suggestion now rand task) = VStr "high").
Proof.
  intros H.
  destruct (H 0 0%Q (mkTask "t" High Todo (Some (1 * MS_PER_DAY)) 150)
              eq_refl eq_refl) as [Hscore _].
  vm_compute in Hscore. discriminate Hscore.
Qed.

(** C7, amended. For every task due exactly one day from [now] with
    priority high, the score is 40 + 30 = 70 plus the points of the time and
    status rules (20 if [timeSpent > 120], 15 if in progress), so it is 70
    when neither of these fires and at least 70 always, and the label is
    high, in both implementations. *)
Theorem due_in_one_day_high_priority (now : Z) (rand : Q) (task : Task) :
  dueDate task = Some (now + 1 * MS_PER_DAY) ->
  priority task = High ->
  Backend.score now task
    = 40 + 30 + (if 120 <? timeSpent task then 20 else 0)
      + match status task with InProgress => 15 | _ => 0 end /\
  (timeSpent task <= 120 -> status task <> InProgress ->
   Backend.score now task = 70) /\
  70 <= Backend.score now task /\
  field "suggestedPriority" (Backend.suggestion now rand task) = VStr "high" /\
  field "suggestedPriority" (Frontend.suggestion now rand task) = VStr "high".
Proof.
  intros Hdue Hprio.
  assert (Hs : Backend.score now task
               = 70 + time_points task + status_points task).
  { rewrite backend_score_sum, Hdue, Hprio, daysUntil_whole_days.
    reflexivity. }
  assert (Hge : 70 <= Backend.score now task).
  { rewrite Hs. unfold time_points, status_points.
    destruct (120 <? timeSpent task); destruct (status task); lia. }
  split; [| split; [| split; [exact Hge |]]].
  - rewrite Hs. unfold time_points, status_points. lia.
  - intros Ht Hst. rewrite Hs. unfold time_points, status_points.
    destruct (Z.ltb_spec 120 (timeSpent task)); [lia |].
    destruct (status task); try reflexivity. contradiction.
  - rewrite frontend_label, backend_label.
    destruct (Z.leb_spec 60 (Backend.score now task)); [| lia].
    split; reflexivity.
Qed.

Lemma due_in_one_day_high_priority_witness :
  Backend.score 5000 (mkTask "a" High Todo (Some (5000 + 1 * MS_PER_DAY)) 30) = 70 /\
  field "suggestedPriority"
    (Backend.suggestion 5000 (1 # 4)
       (mkTask "a" High Todo (Some (5000 + 1 * MS_PER_DAY)) 30)) = VStr "high".
Proof.
  destruct (due_in_one_day_high_priority 5000 (1 # 4)
              (mkTask "a" High Todo (Some (5000 + 1 * MS_PER_DAY)) 30)
              eq_refl eq_refl) as (_ & H70 & _ & Hlabel & _).
  split.
  - apply H70; [simpl; lia | discriminate].
  - exact Hlabel.
Defined.

(** The points of the deadline rule do not decrease when the number of
    days until the due date does. *)
Lemma deadline_points_antitone (d d' : Z) :
  d <= d' -> deadline_points d' <= deadline_points d.
Proof.
  intros H. unfold deadline_points.
  destruct (Z.leb_spec d' 1), (Z.leb_spec d 1); try lia;
  destruct (Z.leb_spec d' 3), (Z.leb_spec d 3); try lia;
  destruct (Z.leb_spec d' 7), (Z.leb_spec d 7); lia.
Qed.

(** C8. With priority, time spent and status fixed, for two due dates whose
    days until due are [d1 > d2] with [2 <= d2 < d1 <= 10], the score at
    [d2] is at least the score at [d1]. *)
Theorem score_monotone_as_due_date_nears
    (now : Z) (t1 t2 : Task) (due1 due2 : Z) :
  priority t1 = priority t2 ->
  timeSpent t1 = timeSpent t2 ->
  status t1 = status t2 ->
  dueDate t1 = Some due1 ->
  dueDate t2 = Some due2 ->
  2 <= daysUntil now due2 ->
  daysUntil now due2 < daysUntil now due1 ->
  daysUntil now due1 <= 10 ->
  Backend.score now t1 <= Backend.score now t2 /\
  Frontend.score now t1 <= Frontend.score now t2.
Proof.
  intros Hp Ht Hs Hd1 Hd2 Hlo Hlt Hhi.
  change (Frontend.score now t1) with (Backend.score now t1).
  change (Frontend.score now t2) with (Backend.score now t2).
  rewrite !backend_score_sum, Hd1, Hd2.
  unfold time_points, status_points. rewrite Hp, Ht, Hs.
  pose proof (deadline_points_antitone (daysUntil now due2)
                (daysUntil now due1) ltac:(lia)).
  lia.
Qed.

Lemma score_monotone_as_due_date_nears_witness :
  Backend.score 0 (mkTask "far" Medium Todo (Some (10 * MS_PER_DAY)) 0)
  <= Backend.score 0 (mkTask "near" Medium Todo (Some (2 * MS_PER_DAY)) 0) /\
  Frontend.score 0 (mkTask "far" Medium Todo (Some (10 * MS_PER_DAY)) 0)
  <= Frontend.score 0 (mkTask "near" Medium Todo (Some (2 * MS_PER_DAY)) 0).
Proof.
  apply (score_monotone_as_due_date_nears 0
           (mkTask "far" Medium Todo (Some (10 * MS_PER_DAY)) 0)
           (mkTask "near" Medium Todo (Some (2 * MS_PER_DAY)) 0)
           (10 * MS_PER_DAY) (2 * MS_PER_DAY));
    try reflexivity; vm_compute; discriminate.
Defined.

(** ** What the envelope holds *)

Lemma map_map_random {A B C : Type} (g : B -> C) (f : Q -> A -> B)
    (h : A -> C) (rnd : nat -> Q) (l : list A) :
  (forall u x, g (f u x) = h x) ->
  forall k, map g (map_random f rnd k l) = map h l.
Proof.
  intros Hg. induction l as [| x rest IH]; intros k; simpl.
  - reflexivity.
  - rewrite Hg, IH. reflexivity.
Qed.

Lemma backend_priority_and_reason (now : Z) (u : Q) (t : Task) :
  priority_and_reason (Backend.suggestion now u t)
  = priority_and_reason (Backend.suggestion now 0 t).
Proof.
  unfold priority_and_reason, Backend.suggestion.
  destruct (Backend.score_reasons now t) as [s rs]. reflexivity.
Qed.

Lemma frontend_priority_and_reason (now : Z) (u : Q) (t : Task) :
  priority_and_reason (Frontend.suggestion now u t)
  = priority_and_reason (Backend.suggestion now 0 t).
Proof.
  unfold priority_and_reason, Frontend.suggestion, Backend.suggestion.
  rewrite frontend_score_reasons.
  destruct (Backend.score_reasons now t) as [s rs].
  destruct (s >=? 60); [reflexivity |]. destruct (s >=? 30); reflexivity.
Qed.

Lemma backend_suggestions (now : Z) (rnd : nat -> Q) (tasks : list Task) :
  map priority_and_reason
    (suggestions_of (Backend.generateRuleBasedPrioritization now rnd tasks))
  = map (fun t => priority_and_reason (Backend.suggestion now 0 t)) tasks.
Proof.
  unfold suggestions_of, Backend.generateRuleBasedPrioritization.
  cbn [field get_prop lookup String.eqb elements].
  apply map_map_random. intros u x. apply backend_priority_and_reason.
Qed.

Lemma frontend_suggestions (now : Z) (rnd : nat -> Q) (tasks : list Task) :
  map priority_and_reason
    (suggestions_of (Frontend.fallbackPrioritization now rnd tasks))
  = map (fun t => priority_and_reason (Backend.suggestion now 0 t)) tasks.
Proof.
  unfold suggestions_of, Frontend.fallbackPrioritization.
  cbn [field get_prop lookup String.eqb elements].
  apply map_map_random. intros u x. apply frontend_priority_and_reason.
Qed.

Lemma same_inputs_same_result (now : Z) (t1 t2 : Task) :
  same_scoring_inputs t1 t2 ->
  priority_and_reason (Backend.suggestion now 0 t1)
  = priority_and_reason (Backend.suggestion now 0 t2).
Proof.
  intros (Hd & Hp & Ht & Hs).
  assert (Hsr : Backend.score_reasons now t1 = Backend.score_reasons now t2).
  { unfold Backend.score_reasons. rewrite Hd, Hp, Ht, Hs. reflexivity. }
  unfold priority_and_reason, Backend.suggestion. rewrite Hsr.
  destruct (Backend.score_reasons now t2) as [s rs]. reflexivity.
Qed.

(** C2. The backend and the frontend implement the same heuristic: on task
    lists that agree, position by position, on due date, priority, time
    spent and status, and with the same [now], the two functions give the
    same suggested priority and the same reason for every task, whatever
    each one's random source draws. *)
Theorem backend_frontend_same_heuristic
    (now : Z) (rndB rndF : nat -> Q) (tasksB tasksF : list Task) :
  Forall2 same_scoring_inputs tasksB tasksF ->
  map priority_and_reason
    (suggestions_of (Backend.generateRuleBasedPrioritization now rndB tasksB))
  = map priority_and_reason
      (suggestions_of (Frontend.fallbackPrioritization now rndF tasksF)).
Proof.
  intros Hsame. rewrite backend_suggestions, frontend_suggestions.
  induction Hsame as [| t1 t2 l1 l2 Ht _ IH]; simpl.
  - reflexivity.
  - rewrite (same_inputs_same_result now t1 t2 Ht), IH. reflexivity.
Qed.

Lemma backend_frontend_same_heuristic_witness :
  map priority_and_reason
    (suggestions_of
       (Backend.generateRuleBasedPrioritization 7000 (fun _ => 1 # 3)
          [ mkTask "64a1" High Todo (Some (7000 + 2 * MS_PER_DAY)) 10;
            mkTask "64a2" Low InProgress None 300 ]))
  = map priority_and_reason
      (suggestions_of
         (Frontend.fallbackPrioritization 7000 (fun _ => 9 # 10)
            [ mkTask "1" High Todo (Some (7000 + 2 * MS_PER_DAY)) 10;
              mkTask "2" Low InProgress None 300 ])).
Proof.
  apply backend_frontend_same_heuristic.
  repeat constructor.
Defined.

(** C9. Two runs of the scoring function on the same task list with the
    same [now] give every task the same suggested priority and the same
    reason, whatever the random source draws in either run; this holds for
    the backend and for the frontend function. *)
Theorem priority_and_reason_independent_of_random
    (now : Z) (rnd1 rnd2 : nat -> Q) (tasks : list Task) :
  map priority_and_reason
    (suggestions_of (Backend.generateRuleBasedPrioritization now rnd1 tasks))
  = map priority_and_reason
      (suggestions_of (Backend.generateRuleBasedPrioritization now rnd2 tasks))
  /\
  map priority_and_reason
    (suggestions_of (Frontend.fallbackPrioritization now rnd1 tasks))
  = map priority_and_reason
      (suggestions_of (Frontend.fallbackPrioritization now rnd2 tasks)).
Proof.
  split.
  - rewrite !backend_suggestions. reflexivity.
  - rewrite !frontend_suggestions. reflexivity.
Qed.

(** ** The insights *)

Lemma filter_nonempty {A : Type} (f : A -> bool) (l : list A) :
  Nat.ltb 0 (length (filter f l)) = true <-> exists x, In x l /\ f x = true.
Proof.
  rewrite Nat.ltb_lt. induction l as [| a rest IH]; simpl.
  - split; [lia | intros (x & [] & _)].
  - destruct (f a) eqn:Hfa; simpl.
    + split; [intros _; exists a; auto | lia].
    + rewrite IH. split.
      * intros (x & Hin & Hfx). exists x. auto.
      * intros (x & [Heq | Hin] & Hfx); [congruence | exists x; auto].
Qed.

Lemma backend_second_insight (now : Z) (rnd : nat -> Q) (tasks : list Task) :
  second_insight (Backend.generateRuleBasedPrioritization now rnd tasks)
  = if Nat.ltb 0 (length (filter (overdue now) tasks))
    then VStr "You have overdue tasks that need immediate attention"
    else VStr "No overdue tasks - good job staying on track!".
Proof. reflexivity. Qed.

Lemma frontend_second_insight (now : Z) (rnd : nat -> Q) (tasks : list Task) :
  second_insight (Frontend.fallbackPrioritization now rnd tasks)
  = if Nat.ltb 0 (length (filter (overdue now) tasks))
    then VStr "You have overdue tasks that need immediate attention"
    else VStr "No overdue tasks - good job staying on track!".
Proof. reflexivity. Qed.

Lemma overdue_filter_iff (now : Z) (tasks : list Task) :
  Forall (fun t => status t <> Completed) tasks ->
  Nat.ltb 0 (length (filter (overdue now) tasks)) = true <->
  some_overdue now tasks.
Proof.
  intros Hactive. rewrite filter_nonempty. unfold some_overdue, overdue. split.
  - intros (t & Hin & Ht). destruct (dueDate t) as [due|] eqn:Hdue;
      [| discriminate]. exists t, due. repeat split; auto.
    + apply Z.ltb_lt. exact Ht.
    + exact (proj1 (Forall_forall _ _) Hactive t Hin).
  - intros (t & due & Hin & Hdue & Hlt & _). exists t. split; [exact Hin |].
    rewrite Hdue. apply Z.ltb_lt. exact Hlt.
Qed.

(** C4. For every non-empty task list without completed tasks, the second
    insight of the scoring fallback (backend and frontend) is the overdue
    message if and only if some task of the list has a due date strictly
    before [now] and a status other than completed, and it is the
    no-overdue message otherwise. *)
Theorem second_insight_overdue_iff
    (now : Z) (rnd : nat -> Q) (tasks : list Task) :
  tasks <> [] ->
  Forall (fun t => status t <> Completed) tasks ->
  forall envelope : value,
    envelope = Backend.generateRuleBasedPrioritization now rnd tasks \/
    envelope = Frontend.fallbackPrioritization now rnd tasks ->
    (second_insight envelope
       = VStr "You have overdue tasks that need immediate attention"
     <-> some_overdue now tasks) /\
    (~ some_overdue now tasks ->
     second_insight envelope
       = VStr "No overdue tasks - good job staying on track!").
Proof.
  intros _ Hactive envelope Henv.
  assert (Hsecond : second_insight envelope
            = if Nat.ltb 0 (length (filter (overdue now) tasks))
              then VStr "You have overdue tasks that need immediate attention"
              else VStr "No overdue tasks - good job staying on track!").
  { destruct Henv as [-> | ->];
      [apply backend_second_insight | apply frontend_second_insight]. }
  rewrite Hsecond. pose proof (overdue_filter_iff now tasks Hactive) as Hiff.
  destruct (Nat.ltb 0 (length (filter (overdue now) tasks))).
  - split.
    + split; [intros _; apply Hiff; reflexivity | reflexivity].
    + intros Hno. exfalso. apply Hno, Hiff. reflexivity.
  - split.
    + split; [discriminate |].
      intros Hsome. apply Hiff in Hsome. discriminate Hsome.
    + reflexivity.
Qed.

Lemma second_insight_overdue_iff_witness :
  second_insight
    (Backend.generateRuleBasedPrioritization 1000 (fun _ => 0%Q)
       [ mkTask "a" Medium Todo None 0; mkTask "b" Low Todo (Some 999) 0 ])
  = VStr "You have overdue tasks that need immediate attention"
  <-> some_overdue 1000
        [ mkTask "a" Medium Todo None 0; mkTask "b" Low Todo (Some 999) 0 ].
Proof.
  apply (second_insight_overdue_iff 1000 (fun _ => 0%Q)
           [ mkTask "a" Medium Todo None 0; mkTask "b" Low Todo (Some 999) 0 ]).
  - discriminate.
  - repeat constructor; discriminate.
  - left. reflexivity.
Defined.

(** ** The confidence *)


(** The integer nearest to [x] is [floor x] or [floor x + 1]. *)
Lemma rne_floor (x : Q) : Qfloor x <= rne x <= Qfloor x + 1.
Proof.
  unfold rne. destruct (x - inject_Z (Qfloor x) ?= 1 # 2)%Q; try lia.
  destruct (Z.even (Qfloor x)); lia.
Qed.

Lemma rne_ge (x : Q) (n : Z) : (inject_Z n <= x)%Q -> n <= rne x.
Proof.
  intros H. pose proof (rne_floor x) as Hf.
  pose proof (Qfloor_resp_le _ _ H) as Hn. rewrite Qfloor_Z in Hn. lia.
Qed.

Lemma rne_le (x : Q) (n : Z) : (x <= inject_Z n)%Q -> rne x <= n.
Proof.
  intros H. pose proof (rne_floor x) as Hf.
  pose proof (Qfloor_resp_le _ _ H) as Hn. rewrite Qfloor_Z in Hn.
  destruct (Z.eq_dec (Qfloor x) n) as [Heq | Hne]; [| lia].
  unfold rne. rewrite Heq.
  assert (Hlt : (x - inject_Z n < 1 # 2)%Q).
  { apply Qle_lt_trans with 0%Q; [| reflexivity].
    apply Qle_minus_iff in H. apply Qle_minus_iff.
    setoid_replace (0 + - (x - inject_Z n))%Q with (inject_Z n + - x)%Q by ring.
    exact H. }
  destruct (x - inject_Z n ?= 1 # 2)%Q eqn:Hc.
  - apply Qeq_alt in Hc. rewrite Hc in Hlt.
    exfalso. exact (Qlt_irrefl _ Hlt).
  - lia.
  - apply Qgt_alt in Hc. exfalso.
    exact (Qlt_irrefl _ (Qlt_trans _ _ _ Hc Hlt)).
Qed.

(** Below [2 ^ 53] the exponent of the leading bit is at most 52, so the
    unit of the last place is at most 1. *)
Lemma ilog2_small (x : Q) :
  (0 < x)%Q -> (x < inject_Z (2 ^ 53))%Q -> ilog2 x <= 52.
Proof.
  intros Hpos Hlt. unfold ilog2.
  destruct x as [n d]. cbn [Qnum Qden].
  assert (Hn : 0 < n) by (unfold Qlt in Hpos; cbn in Hpos; lia).
  destruct (Qle_bool (pow2 (Z.log2 n - Z.log2 (Z.pos d))) (n # d)) eqn:Hb.
  - apply Qle_bool_iff in Hb.
    destruct (Z_le_gt_dec (Z.log2 n - Z.log2 (Z.pos d)) 52) as [Hle | Hgt];
      [exact Hle | exfalso].
    unfold pow2 in Hb.
    destruct (Z.ltb_spec 0 (Z.log2 n - Z.log2 (Z.pos d))); [| lia].
    assert (H53 : 2 ^ 53 <= 2 ^ (Z.log2 n - Z.log2 (Z.pos d)))
      by (apply Z.pow_le_mono_r; lia).
    apply (Qlt_irrefl (n # d)).
    apply Qlt_le_trans with (inject_Z (2 ^ 53)); [exact Hlt |].
    apply Qle_trans with (inject_Z (2 ^ (Z.log2 n - Z.log2 (Z.pos d))));
      [| exact Hb].
    rewrite <- Zle_Qle. exact H53.
  - assert (Hnd : n < 2 ^ (54 + Z.log2 (Z.pos d))).
    { unfold Qlt in Hlt. cbn [Qnum Qden inject_Z] in Hlt.
      pose proof (Z.log2_spec (Z.pos d) ltac:(lia)) as [_ Hd].
      replace (54 + Z.log2 (Z.pos d)) with (53 + Z.succ (Z.log2 (Z.pos d)))
        by lia.
      rewrite Z.pow_add_r by (pose proof (Z.log2_nonneg (Z.pos d)); lia).
      nia. }
    apply Z.log2_lt_pow2 in Hnd; [lia | exact Hn].
Qed.

Lemma round_pos_between (a b : Z) (x : Q) :
  0 <= a -> b < 2 ^ 53 -> (0 < x)%Q ->
  (inject_Z a <= x)%Q -> (x <= inject_Z b)%Q ->
  (inject_Z a <= round_pos x)%Q /\ (round_pos x <= inject_Z b)%Q.
Proof.
  intros Ha Hb Hpos Hax Hxb. unfold round_pos. rewrite !Qred_correct.
  assert (Hsmall : ilog2 x <= 52).
  { apply ilog2_small; [exact Hpos |].
    apply Qle_lt_trans with (inject_Z b); [exact Hxb |].
    rewrite <- Zlt_Qlt. exact Hb. }
  set (e := Z.max (ilog2 x - 52) (-1074)).
  assert (He : e <= 0) by (unfold e; lia).
  unfold pow2. destruct (Z.ltb_spec 0 e); [lia |].
  assert (Hp : 0 < 2 ^ (- e)) by (apply Z.pow_pos_nonneg; lia).
  set (p := Z.to_pos (2 ^ (- e))).
  assert (HP : Z.pos p = 2 ^ (- e)) by (unfold p; rewrite Z2Pos.id; lia).
  assert (Hdiv : (x / (1 # p) == x * inject_Z (Z.pos p))%Q).
  { unfold Qdiv, Qinv. cbn. reflexivity. }
  assert (Hlo : (inject_Z (a * Z.pos p) <= x / (1 # p))%Q).
  { rewrite Hdiv, inject_Z_mult. apply Qmult_le_compat_r; [exact Hax |].
    unfold Qle; cbn; lia. }
  assert (Hhi : (x / (1 # p) <= inject_Z (b * Z.pos p))%Q).
  { rewrite Hdiv, inject_Z_mult. apply Qmult_le_compat_r; [exact Hxb |].
    unfold Qle; cbn; lia. }
  apply rne_ge in Hlo. apply rne_le in Hhi.
  set (m := rne (x / (1 # p))) in *.
  unfold Qle, Qmult, inject_Z. cbn [Qnum Qden].
  rewrite Pos.mul_1_l. split; nia.
Qed.

(** Rounding to the nearest double does not cross an integer below
    [2 ^ 53]: integers of that size are doubles. *)
Lemma round64_between (a b : Z) (x : Q) :
  0 <= a -> b < 2 ^ 53 ->
  (inject_Z a <= x)%Q -> (x <= inject_Z b)%Q ->
  (inject_Z a <= round64 x)%Q /\ (round64 x <= inject_Z b)%Q.
Proof.
  intros Ha Hb Hax Hxb. unfold round64.
  destruct (x ?= 0)%Q eqn:Hc.
  - apply Qeq_alt in Hc. split.
    + rewrite <- Hc. exact Hax.
    + rewrite <- Hc. exact Hxb.
  - exfalso. apply Qlt_alt in Hc.
    apply (Qlt_irrefl x). apply Qlt_le_trans with 0%Q; [exact Hc |].
    apply Qle_trans with (inject_Z a); [| exact Hax].
    unfold Qle; cbn; lia.
  - apply Qgt_alt in Hc. apply round_pos_between; assumption.
Qed.

(** The jitter [Math.random() * 20] and the sum [score + jitter], as the
    doubles the code computes. *)
Lemma jitter_bounds (u : Q) :
  (0 <= u)%Q -> (u < 1)%Q ->
  (0 <= double_mul u 20)%Q /\ (double_mul u 20 <= 20)%Q.
Proof.
  intros H0 H1. unfold double_mul.
  apply (round64_between 0 20); try lia.
  - apply Qmult_le_0_compat; [exact H0 | discriminate].
  - setoid_replace (inject_Z 20) with (1 * 20)%Q by reflexivity.
    apply Qmult_le_compat_r; [apply Qlt_le_weak; exact H1 | discriminate].
Qed.

Lemma sum_bounds (s : Z) (j : Q) :
  0 <= s <= 105 -> (0 <= j)%Q -> (j <= 20)%Q ->
  (inject_Z s <= double_add (inject_Z s) j)%Q /\
  (double_add (inject_Z s) j <= inject_Z s + 20)%Q.
Proof.
  intros Hs H0 H20. unfold double_add.
  setoid_replace (inject_Z s + 20)%Q with (inject_Z (s + 20))
    by (rewrite inject_Z_plus; reflexivity).
  apply (round64_between s (s + 20)); try lia.
  - setoid_replace (inject_Z s) with (inject_Z s + 0)%Q at 1 by ring.
    apply Qplus_le_compat; [apply Qle_refl | exact H0].
  - rewrite inject_Z_plus. apply Qplus_le_compat; [apply Qle_refl | exact H20].
Qed.

Lemma backend_confidence (now : Z) (u : Q) (t : Task) :
  field "confidence" (Backend.suggestion now u t)
  = VNum (Qmin 95
            (Qmax 60 (double_add (inject_Z (Backend.score now t))
                                 (double_mul u 20)))).
Proof.
  unfold Backend.suggestion, Backend.score.
  destruct (Backend.score_reasons now t) as [s rs]. reflexivity.
Qed.

Lemma frontend_confidence (now : Z) (u : Q) (t : Task) :
  field "confidence" (Frontend.suggestion now u t)
  = VNum (Qmin 95
            (Qmax 60 (double_add (inject_Z (Backend.score now t))
                                 (double_mul u 20)))).
Proof.
  unfold Frontend.suggestion, Backend.score. rewrite frontend_score_reasons.
  destruct (Backend.score_reasons now t) as [s rs]. reflexivity.
Qed.




(** On the samples, among them the operands of the confidence at the
    largest draw, at a third and between subnormal numbers, [round64]
    gives what the binary64 arithmetic of the primitive floats gives. *)
Example round64_is_binary64 :
  forallb (fun ab => Binary64.agree_on (fst ab) (snd ab)) Binary64.samples
  = true.
Proof. vm_compute. reflexivity. Qed.

(** With the double nearest to a third as the draw and a score of 70, the
    jitter is the double nearest to twenty times the draw, and the
    confidence the double nearest to 70 plus the jitter: neither operation
    is exact. *)
Example confidence_concrete :
  double_mul (6004799503160661 # 18014398509481984) 20
  = (3752999689475413 # 562949953421312)%Q /\
  ~ (double_mul (6004799503160661 # 18014398509481984) 20
     == (6004799503160661 # 18014398509481984) * 20)%Q /\
  field "confidence"
    (Backend.suggestion 0 (6004799503160661 # 18014398509481984)
       (mkTask "t" High Todo (Some 0%Z) 0))
  = VNum (5394937053620907 # 70368744177664) /\
  ~ (5394937053620907 # 70368744177664
     == 70 + (3752999689475413 # 562949953421312))%Q.
Proof.
  split; [vm_compute; reflexivity |].
  split; [intros H; vm_compute in H; discriminate H |].
  split; [vm_compute; reflexivity |].
  intros H; vm_compute in H; discriminate H.
Qed.

(** ** The shape of the envelope *)

(** C6. The frontend fallback always returns a [recommendations] list of
    exactly four fixed strings; the envelope of the backend fallback has the
    fields [suggestions] and [insights] only, and no [recommendations]. *)
Theorem recommendations_frontend_only
    (now : Z) (rnd : nat -> Q) (tasks : list Task) :
  field "recommendations" (Frontend.fallbackPrioritization now rnd tasks)
  = VArr [ VStr "Focus on high-priority items first";
           VStr "Break large tasks into smaller, manageable chunks";
           VStr "Use time-blocking to allocate focused work periods";
           VStr "Review and adjust priorities weekly" ] /\
  length (elements
            (field "recommendations"
               (Frontend.fallbackPrioritization now rnd tasks))) = 4%nat /\
  keys (Backend.generateRuleBasedPrioritization now rnd tasks)
  = ["suggestions"; "insights"] /\
  ~ In "recommendations"
       (keys (Backend.generateRuleBasedPrioritization now rnd tasks)) /\
  field "recommendations" (Backend.generateRuleBasedPrioritization now rnd tasks)
  = VUndefined.
Proof.
  repeat split.
  simpl. intros [H | [H | []]]; discriminate H.
Qed.

(** ** The handler on an empty task list *)

Example empty_world_projects_fail :
  prioritize (empty_world None)
  = ([FindTasks; FindProjects; FindTasks; RuleBased],
     Some (mkResponse 200
             (VObj [ ("suggestions", VArr []);
                     ("insights",
                      VArr [ VStr "Prioritization based on deadlines, time investment, and current status";
                             VStr "No overdue tasks - good job staying on track!" ]) ]))).
Proof. reflexivity. Qed.

(** C3 as the specification states it fails: the handler queries the
    projects before it looks at the length of the task list, and when that
    query throws the [catch] block runs the rule-based prioritisation on
    the (empty) list it fetches again. *)
Lemma empty_list_not_always_short_circuited :
  ~ (forall w : world,
        tasks_found w = Some [] ->
        sent w = Some (mkResponse 200 no_active_tasks) /\
        ~ In RuleBased (calls w) /\ ~ In RemoteModel (calls w)).
Proof.
  intros H.
  destruct (H (empty_world None) eq_refl) as (_ & Hrule & _).
  apply Hrule. vm_compute. auto.
Qed.

(** C3, amended. If the fetched list of eligible tasks is empty and the
    query of the projects that follows it succeeds, the handler answers
    exactly [{ suggestions: [], insights: ["No active tasks found to
    prioritize."] }] with the default status 200, and it has called neither
    the scoring function nor the remote model: its only calls are the two
    queries. *)
Theorem empty_list_short_circuit (w : world) :
  tasks_found w = Some [] ->
  projects_found w = Some tt ->
  sent w = Some (mkResponse 200 no_active_tasks) /\
  calls w = [FindTasks; FindProjects] /\
  ~ In RuleBased (calls w) /\ ~ In RemoteModel (calls w).
Proof.
  intros Htasks Hprojects.
  assert (Hrun : prioritize w
                 = ([FindTasks; FindProjects],
                    Some (mkResponse 200 no_active_tasks))).
  { unfold prioritize. rewrite Htasks, Hprojects. reflexivity. }
  unfold sent, calls. rewrite Hrun. simpl.
  repeat split; intros [H | [H | []]]; discriminate H.
Qed.

Lemma empty_list_short_circuit_witness :
  sent (empty_world (Some tt)) = Some (mkResponse 200 no_active_tasks) /\
  calls (empty_world (Some tt)) = [FindTasks; FindProjects] /\
  ~ In RuleBased (calls (empty_world (Some tt))) /\
  ~ In RemoteModel (calls (empty_world (Some tt))).
Proof.
  apply (empty_list_short_circuit (empty_world (Some tt))); reflexivity.
Defined.

(** ** The success path of [suggestPrioritization] *)

Lemma js_or_empty_list (k : string) (data result x : value) :
  get_prop data k = Some x ->
  field k result = js_or x (VArr []) ->
  field_defaulted k data result.
Proof.
  intros Hget Hres.
  assert (Hdata : field k data = x) by (unfold field; rewrite Hget; reflexivity).
  unfold field_defaulted. rewrite Hdata, Hres. unfold js_or.
  destruct (truthy x) eqn:Hx.
  - repeat split; auto. intros [H | H]; [discriminate H | exact H].
  - repeat split; auto.
Qed.

(** C10 as stated fails: a truthy field of the reply that is not a list is
    passed on as it is. *)
Lemma accepted_reply_field_not_always_list :
  ~ (forall (r : Frontend.reply) (result : value),
        Frontend.suggestPrioritization_try r = Some result ->
        is_array (field "suggestions" result) = true /\
        is_array (field "insights" result) = true /\
        is_array (field "recommendations" result) = true).
Proof.
  intros H.
  destruct (H (Frontend.Body (Some (VObj [("suggestions", VStr "none")]))) _
              eq_refl) as (Hs & _).
  vm_compute in Hs. discriminate Hs.
Qed.

(** C10, amended. For every remote reply accepted on the success path of
    [suggestPrioritization], the returned object has exactly the fields
    [suggestions], [insights] and [recommendations], and none of them is
    absent or falsy: a field that is missing or falsy in the reply is
    replaced by the empty list, and a truthy field is passed on unchanged,
    so each field is a list whenever the reply's field is missing, falsy or
    a list. *)
Theorem accepted_reply_fields_defaulted
    (now : Z) (rnd : nat -> Q) (tasks : list Task)
    (r : Frontend.reply) (result : value) :
  Frontend.suggestPrioritization_try r = Some result ->
  Frontend.suggestPrioritization now rnd r tasks = result /\
  keys result = ["suggestions"; "insights"; "recommendations"] /\
  exists data : value,
    Frontend.makeRequest r = Some data /\
    field_defaulted "suggestions" data result /\
    field_defaulted "insights" data result /\
    field_defaulted "recommendations" data result.
Proof.
  intros Htry. split.
  { unfold Frontend.suggestPrioritization. rewrite Htry. reflexivity. }
  unfold Frontend.suggestPrioritization_try in Htry.
  destruct (Frontend.makeRequest r) as [data|]; [| discriminate].
  destruct (get_prop data "suggestions") as [s|] eqn:Hs; [| discriminate].
  destruct (get_prop data "insights") as [i|] eqn:Hi; [| discriminate].
  destruct (get_prop data "recommendations") as [c|] eqn:Hc; [| discriminate].
  injection Htry as <-. split; [reflexivity |].
  exists data. split; [reflexivity |].
  split; [| split].
  - apply (js_or_empty_list _ _ _ s Hs). reflexivity.
  - apply (js_or_empty_list _ _ _ i Hi). reflexivity.
  - apply (js_or_empty_list _ _ _ c Hc). reflexivity.
Qed.

Lemma accepted_reply_fields_defaulted_witness :
  Frontend.suggestPrioritization 0 (fun _ => 0%Q)
    (Frontend.Body
       (Some (VObj [ ("suggestions", VArr [VStr "s"]); ("insights", VNull) ])))
    []
  = VObj [ ("suggestions", VArr [VStr "s"]);
           ("insights", VArr []);
           ("recommendations", VArr []) ].
Proof.
  destruct (accepted_reply_fields_defaulted 0 (fun _ => 0%Q) []
              (Frontend.Body
                 (Some (VObj [ ("suggestions", VArr [VStr "s"]);
                               ("insights", VNull) ])))
              (VObj [ ("suggestions", VArr [VStr "s"]);
                      ("insights", VArr []);
                      ("recommendations", VArr []) ]) eq_refl) as [H _].
  exact H.
Defined.

(** ** More about the scoring function *)

Lemma in_map_random {A B : Type} (f : Q -> A -> B) (rnd : nat -> Q)
    (l : list A) (x : A) :
  In x l -> forall k, exists u, In (f u x) (map_random f rnd k l).
Proof.
  induction l as [| a rest IH]; intros Hin k; [destruct Hin |].
  destruct Hin as [-> | Hin].
  - exists (rnd k). left. reflexivity.
  - destruct (IH Hin (S k)) as [u Hu]. exists u. right. exact Hu.
Qed.

Lemma length_map_random {A B : Type} (f : Q -> A -> B) (rnd : nat -> Q)
    (l : list A) : forall k, length (map_random f rnd k l) = length l.
Proof.
  induction l as [| a rest IH]; intros k; simpl; [| rewrite IH]; reflexivity.
Qed.

Lemma backend_task_id (now : Z) (u : Q) (t : Task) :
  field "taskId" (Backend.suggestion now u t) = VStr (id t).
Proof.
  unfold Backend.suggestion.
  destruct (Backend.score_reasons now t) as [s rs]. reflexivity.
Qed.

Lemma frontend_task_id (now : Z) (u : Q) (t : Task) :
  field "taskId" (Frontend.suggestion now u t) = VStr (id t).
Proof.
  unfold Frontend.suggestion.
  destruct (Frontend.score_reasons now t) as [s rs]. reflexivity.
Qed.

(** X1. Both scoring functions return exactly one suggestion per task, in
    the order of the tasks, each carrying the id of its task. *)
Theorem suggestions_follow_tasks
    (now : Z) (rnd : nat -> Q) (tasks : list Task) :
  map (field "taskId")
    (suggestions_of (Backend.generateRuleBasedPrioritization now rnd tasks))
  = map (fun t => VStr (id t)) tasks /\
  map (field "taskId")
    (suggestions_of (Frontend.fallbackPrioritization now rnd tasks))
  = map (fun t => VStr (id t)) tasks /\
  length (suggestions_of (Backend.generateRuleBasedPrioritization now rnd tasks))
  = length tasks /\
  length (suggestions_of (Frontend.fallbackPrioritization now rnd tasks))
  = length tasks.
Proof.
  unfold suggestions_of, Backend.generateRuleBasedPrioritization,
    Frontend.fallbackPrioritization.
  cbn [field get_prop lookup String.eqb elements].
  repeat split.
  - apply map_map_random. intros u x. apply backend_task_id.
  - apply map_map_random. intros u x. apply frontend_task_id.
  - apply length_map_random.
  - apply length_map_random.
Qed.

(** The score and the reasons of a task are the priority weight plus one
    row of the table of rule outcomes. *)
Lemma score_reasons_in_table (now : Z) (t : Task) :
  In (Backend.score now t - priorityWeights (priority t),
      snd (Backend.score_reasons now t)) rule_table.
Proof.
  unfold Backend.score, Backend.score_reasons.
  destruct (dueDate t) as [due|];
    [destruct (daysUntil now due <=? 1);
       [| destruct (daysUntil now due <=? 3);
          [| destruct (daysUntil now due <=? 7)]] |];
    destruct (timeSpent t >? 120); destruct (status t);
    cbn [status_eqb fst snd push app];
    match goal with
    | |- In (?s - ?w, ?r) _ =>
        replace (s - w) with (s - w + 0) by lia;
        ring_simplify (s - w + 0)
    end;
    vm_compute; tauto.
Qed.

Lemma backend_reason (now : Z) (u : Q) (t : Task) :
  field "reason" (Backend.suggestion now u t)
  = js_or (VStr (join ", " (snd (Backend.score_reasons now t))))
          (VStr "Based on current workload analysis").
Proof.
  unfold Backend.suggestion.
  destruct (Backend.score_reasons now t) as [s rs]. reflexivity.
Qed.

Lemma daysUntil_gt (now due k : Z) :
  k < daysUntil now due <-> k * MS_PER_DAY < due - now.
Proof. pose proof (daysUntil_le now due k). lia. Qed.

Ltac table_cases H :=
  unfold rule_table in H; cbn in H;
  repeat (destruct H as [H | H]); try (exfalso; exact H);
  injection H as <- <-.

(** X2. The reason and the current priority determine the score: two tasks
    (scored at any two times) that have the same priority and get the same
    reason have the same score, hence the same suggested priority. *)
Theorem reason_and_priority_determine_score
    (now1 now2 : Z) (u1 u2 : Q) (t1 t2 : Task) :
  field "reason" (Backend.suggestion now1 u1 t1)
  = field "reason" (Backend.suggestion now2 u2 t2) ->
  priority t1 = priority t2 ->
  Backend.score now1 t1 = Backend.score now2 t2 /\
  field "suggestedPriority" (Backend.suggestion now1 u1 t1)
  = field "suggestedPriority" (Backend.suggestion now2 u2 t2).
Proof.
  intros Hreason Hprio.
  assert (Hscore : Backend.score now1 t1 = Backend.score now2 t2).
  { rewrite !backend_reason in Hreason.
    pose proof (score_reasons_in_table now1 t1) as H1.
    pose proof (score_reasons_in_table now2 t2) as H2.
    rewrite Hprio in H1.
    remember (Backend.score now1 t1 - priorityWeights (priority t2)) as p1 eqn:Hp1.
    remember (Backend.score now2 t2 - priorityWeights (priority t2)) as p2 eqn:Hp2.
    remember (snd (Backend.score_reasons now1 t1)) as r1 eqn:Hr1.
    remember (snd (Backend.score_reasons now2 t2)) as r2 eqn:Hr2.
    clear Hr1 Hr2.
    table_cases H1; table_cases H2;
      first [ lia | vm_compute in Hreason; discriminate Hreason ]. }
  split; [exact Hscore |].
  rewrite !backend_label, Hscore. reflexivity.
Qed.

Lemma reason_and_priority_determine_score_witness :
  Backend.score 0 (mkTask "a" Low InProgress (Some (2 * MS_PER_DAY)) 10)
  = Backend.score MS_PER_DAY
      (mkTask "b" Low InProgress (Some (4 * MS_PER_DAY - 1)) 120).
Proof.
  apply (reason_and_priority_determine_score 0 MS_PER_DAY 0 0
           (mkTask "a" Low InProgress (Some (2 * MS_PER_DAY)) 10)
           (mkTask "b" Low InProgress (Some (4 * MS_PER_DAY - 1)) 120));
    reflexivity.
Defined.

(** X3. The reason of a suggestion is never empty, and it is the default
    sentence exactly when no rule fires for the task (no due date within a
    week of [now], at most 120 minutes spent, not in progress); the score is
    then the priority weight alone. *)
Theorem default_reason_iff_no_rule_fires (now : Z) (u : Q) (t : Task) :
  truthy (field "reason" (Backend.suggestion now u t)) = true /\
  (field "reason" (Backend.suggestion now u t)
     = VStr "Based on current workload analysis"
   <-> no_rule_fires_for now t) /\
  (no_rule_fires_for now t ->
   Backend.score now t = priorityWeights (priority t)) /\
  field "reason" (Frontend.suggestion now u t)
  = field "reason" (Backend.suggestion now u t).
Proof.
  split; [| split; [| split; [| apply frontend_reason]]].
  - rewrite backend_reason.
    pose proof (score_reasons_in_table now t) as H.
    remember (Backend.score now t - priorityWeights (priority t)) as p.
    remember (snd (Backend.score_reasons now t)) as r.
    table_cases H; reflexivity.
  - rewrite backend_reason.
    unfold no_rule_fires_for, Backend.score_reasons.
    destruct (dueDate t) as [due|].
    + rewrite <- daysUntil_gt.
      destruct (Z.leb_spec (daysUntil now due) 1);
        [| destruct (Z.leb_spec (daysUntil now due) 3);
           [| destruct (Z.leb_spec (daysUntil now due) 7)]];
        rewrite Z.gtb_ltb; destruct (Z.ltb_spec 120 (timeSpent t));
        destruct (status t) eqn:Hst; cbn;
        (split; [intros Heq; try discriminate Heq; repeat split; try lia;
                 discriminate
                | intros (Hd & Ht & Hs); try reflexivity; try lia;
                  try (exfalso; apply Hs; reflexivity) ]).
    + rewrite Z.gtb_ltb; destruct (Z.ltb_spec 120 (timeSpent t));
        destruct (status t) eqn:Hst; cbn;
        (split; [intros Heq; try discriminate Heq; repeat split; try lia;
                 discriminate
                | intros (Hd & Ht & Hs); try reflexivity; try lia;
                  try (exfalso; apply Hs; reflexivity) ]).
  - intros (Hd & Ht & Hs). rewrite backend_score_sum.
    unfold time_points, status_points.
    destruct (Z.ltb_spec 120 (timeSpent t)); [lia |].
    assert (Hdl : match dueDate t with
                  | Some due => deadline_points (daysUntil now due)
                  | None => 0
                  end = 0).
    { destruct (dueDate t) as [due|]; [| reflexivity].
      apply daysUntil_gt in Hd. unfold deadline_points.
      destruct (Z.leb_spec (daysUntil now due) 1); [lia |].
      destruct (Z.leb_spec (daysUntil now due) 3); [lia |].
      destruct (Z.leb_spec (daysUntil now due) 7); [lia | reflexivity]. }
    rewrite Hdl. destruct (status t); try lia. contradiction.
Qed.

(** A task whose due date is at most one day after [now], overdue tasks
    included, gets the first branch of the deadline rule. *)
Lemma within_a_day_urgent (now : Z) (u : Q) (t : Task) (due : Z) :
  dueDate t = Some due ->
  due - now <= MS_PER_DAY ->
  45 <= Backend.score now t /\
  field "suggestedPriority" (Backend.suggestion now u t) <> VStr "low" /\
  exists rest : string,
    field "reason" (Backend.suggestion now u t)
    = VStr ("Due very soon" ++ rest).
Proof.
  intros Hdue Hnear.
  assert (Hdays : (daysUntil now due <=? 1) = true).
  { apply Z.leb_le, daysUntil_le. lia. }
  assert (Hscore : 45 <= Backend.score now t).
  { rewrite backend_score_sum, Hdue. unfold deadline_points. rewrite Hdays.
    unfold time_points, status_points.
    destruct (priority t); destruct (120 <? timeSpent t);
      destruct (status t); simpl; lia. }
  split; [exact Hscore | split].
  - rewrite backend_label.
    destruct (Z.leb_spec 60 (Backend.score now t)); [discriminate |].
    destruct (Z.leb_spec 30 (Backend.score now t)); [discriminate | lia].
  - rewrite backend_reason. unfold Backend.score_reasons.
    rewrite Hdue, Hdays.
    destruct (timeSpent t >? 120); destruct (status t); cbn;
      eexists; reflexivity.
Qed.

(** X4. A task whose due date is at most one day after [now] (an overdue
    task in particular) scores at least 45, is never labelled low, and its
    reason starts with "Due very soon"; in both implementations. *)
Theorem due_within_a_day_never_low (now : Z) (u : Q) (t : Task) (due : Z) :
  dueDate t = Some due ->
  due - now <= MS_PER_DAY ->
  45 <= Backend.score now t /\
  field "suggestedPriority" (Backend.suggestion now u t) <> VStr "low" /\
  field "suggestedPriority" (Frontend.suggestion now u t) <> VStr "low" /\
  exists rest : string,
    field "reason" (Backend.suggestion now u t) = VStr ("Due very soon" ++ rest) /\
    field "reason" (Frontend.suggestion now u t) = VStr ("Due very soon" ++ rest).
Proof.
  intros Hdue Hnear.
  destruct (within_a_day_urgent now u t due Hdue Hnear)
    as (Hscore & Hlabel & rest & Hreason).
  split; [exact Hscore | split; [exact Hlabel | split]].
  - rewrite frontend_label. exact Hlabel.
  - exists rest. split; [exact Hreason |].
    rewrite (frontend_reason now u u t). exact Hreason.
Qed.

Lemma due_within_a_day_never_low_witness :
  45 <= Backend.score 5000 (mkTask "late" Low Todo (Some 10) 0) /\
  field "suggestedPriority"
    (Backend.suggestion 5000 0 (mkTask "late" Low Todo (Some 10) 0))
  <> VStr "low".
Proof.
  destruct (due_within_a_day_never_low 5000 0
              (mkTask "late" Low Todo (Some 10) 0) 10 eq_refl)
    as (Hs & Hl & _).
  - vm_compute. discriminate.
  - split; [exact Hs | exact Hl].
Defined.

(** X5. When the second insight of the backend fallback is the overdue
    message, the envelope holds a suggestion that is not labelled low and
    whose reason starts with "Due very soon". *)
Theorem overdue_insight_has_urgent_suggestion
    (now : Z) (rnd : nat -> Q) (tasks : list Task) :
  second_insight (Backend.generateRuleBasedPrioritization now rnd tasks)
  = VStr "You have overdue tasks that need immediate attention" ->
  exists sugg : value,
    In sugg (suggestions_of
               (Backend.generateRuleBasedPrioritization now rnd tasks)) /\
    field "suggestedPriority" sugg <> VStr "low" /\
    exists rest : string,
      field "reason" sugg = VStr ("Due very soon" ++ rest).
Proof.
  rewrite backend_second_insight.
  destruct (Nat.ltb 0 (length (filter (overdue now) tasks))) eqn:Hlen;
    [intros _ | discriminate].
  apply filter_nonempty in Hlen. destruct Hlen as (t & Hin & Hover).
  unfold overdue in Hover.
  destruct (dueDate t) as [due|] eqn:Hdue; [| discriminate].
  apply Z.ltb_lt in Hover.
  destruct (in_map_random (Backend.suggestion now) rnd tasks t Hin 0%nat)
    as [u Hu].
  exists (Backend.suggestion now u t). split; [exact Hu |].
  assert (Hnear : due - now <= MS_PER_DAY) by (rewrite MS_PER_DAY_value; lia).
  destruct (within_a_day_urgent now u t due Hdue Hnear) as (_ & Hl & Hr).
  split; assumption.
Qed.

Lemma overdue_insight_has_urgent_suggestion_witness :
  exists sugg : value,
    In sugg (suggestions_of
               (Backend.generateRuleBasedPrioritization 1000 (fun _ => 0%Q)
                  [ mkTask "a" Medium Todo None 0;
                    mkTask "b" Low Todo (Some 999) 0 ])) /\
    field "suggestedPriority" sugg <> VStr "low" /\
    exists rest : string,
      field "reason" sugg = VStr ("Due very soon" ++ rest).
Proof.
  apply overdue_insight_has_urgent_suggestion. reflexivity.
Defined.

Lemma clamp_low (x : Q) : (x <= 60)%Q -> Qmin 95 (Qmax 60 x) = 60%Q.
Proof.
  intros Hx.
  assert (Hmax : Qmax 60 x = 60%Q).
  { unfold Qmax, GenericMinMax.gmax.
    destruct (60 ?= x)%Q eqn:Hcmp; try reflexivity.
    apply Qlt_alt in Hcmp. exfalso. exact (Qlt_not_le _ _ Hcmp Hx). }
  rewrite Hmax. reflexivity.
Qed.

(** X6. For a task that scores at most 40, and so for every task labelled
    low, the confidence is exactly 60 whatever the random source draws in
    the interval from 0 to 1: the draw has no effect. *)
Theorem low_score_confidence_is_60 (now : Z) (u : Q) (t : Task) :
  (0 <= u)%Q -> (u < 1)%Q ->
  (Backend.score now t <= 40 ->
   field "confidence" (Backend.suggestion now u t) = VNum 60 /\
   field "confidence" (Frontend.suggestion now u t) = VNum 60) /\
  (field "suggestedPriority" (Backend.suggestion now u t) = VStr "low" ->
   field "confidence" (Backend.suggestion now u t) = VNum 60).
Proof.
  intros H0 H1.
  destruct (jitter_bounds u H0 H1) as [Hj0 Hj20].
  pose proof (score_bounds now t) as Hb.
  assert (Hlow : Backend.score now t <= 40 ->
                 Qmin 95
                   (Qmax 60 (double_add (inject_Z (Backend.score now t))
                                        (double_mul u 20)))
                 = 60%Q).
  { intros Hs. apply clamp_low.
    destruct (sum_bounds (Backend.score now t) (double_mul u 20)
                ltac:(lia) Hj0 Hj20) as [_ Hsum].
    apply Qle_trans with (inject_Z (Backend.score now t) + 20)%Q;
      [exact Hsum |].
    apply Qle_trans with (inject_Z 40 + 20)%Q; [| discriminate].
    apply Qplus_le_compat; [| apply Qle_refl].
    rewrite <- Zle_Qle. exact Hs. }
  split.
  - intros Hs. rewrite backend_confidence, frontend_confidence, (Hlow Hs).
    split; reflexivity.
  - intros Hlabel. rewrite backend_confidence, Hlow; [reflexivity |].
    rewrite backend_label in Hlabel.
    destruct (Z.leb_spec 60 (Backend.score now t)); [discriminate |].
    destruct (Z.leb_spec 30 (Backend.score now t)); [discriminate | lia].
Qed.

Lemma low_score_confidence_is_60_witness :
  field "confidence"
    (Backend.suggestion 0 (19 # 20) (mkTask "t" Medium Todo None 500))
  = VNum 60.
Proof.
  destruct (low_score_confidence_is_60 0 (19 # 20)
              (mkTask "t" Medium Todo None 500)) as [H _].
  - discriminate.
  - reflexivity.
  - apply H. vm_compute. discriminate.
Defined.

(** ** Applying the suggestions *)

Lemma frontend_suggested (now : Z) (u : Q) (t : Task) :
  suggested (Frontend.suggestion now u t)
  = Some (if 60 <=? Backend.score now t then High
          else if 30 <=? Backend.score now t then Medium else Low).
Proof.
  unfold suggested. rewrite frontend_label, backend_label.
  destruct (60 <=? Backend.score now t); [reflexivity |].
  destruct (30 <=? Backend.score now t); reflexivity.
Qed.

Lemma score_with_priority (now : Z) (t : Task) (p : Priority) :
  Backend.score now (with_priority t p)
  = Backend.score now t - priorityWeights (priority t) + priorityWeights p.
Proof.
  rewrite !backend_score_sum. unfold time_points, status_points, with_priority.
  cbn [dueDate priority timeSpent status]. lia.
Qed.

(** X7. Applying the fallback suggestion of a task and asking again, with
    the same [now] and the task otherwise unchanged, settles after two
    rounds: the suggestion made for the task after the second application
    is the priority that application gave it. *)
Theorem suggestions_settle_after_two_rounds
    (now : Z) (u1 u2 u3 : Q) (t : Task) (p1 p2 p3 : Priority) :
  suggested (Frontend.suggestion now u1 t) = Some p1 ->
  suggested (Frontend.suggestion now u2 (with_priority t p1)) = Some p2 ->
  suggested (Frontend.suggestion now u3 (with_priority t p2)) = Some p3 ->
  p3 = p2.
Proof.
  rewrite !frontend_suggested, !score_with_priority.
  set (b := Backend.score now t - priorityWeights (priority t)).
  replace (Backend.score now t) with (b + priorityWeights (priority t))
    by (unfold b; lia).
  clearbody b. intros H1 H2 H3.
  injection H1 as <-. injection H2 as <-. injection H3 as <-.
  destruct (priority t); cbn [priorityWeights];
    destruct (Z.leb_spec 60 (b + 30)), (Z.leb_spec 30 (b + 30)),
      (Z.leb_spec 60 (b + 15)), (Z.leb_spec 30 (b + 15)),
      (Z.leb_spec 60 (b + 5)), (Z.leb_spec 30 (b + 5));
    cbn [priorityWeights];
    repeat match goal with
           | |- context [?x <=? ?y] =>
               destruct (Z.leb_spec x y); cbn [priorityWeights]
           end;
    first [reflexivity | exfalso; cbn [priorityWeights] in *; lia].
Qed.

Lemma suggestions_settle_after_two_rounds_witness :
  suggested (Frontend.suggestion 0 0 (mkTask "t" High Todo None 0)) = Some Medium /\
  suggested (Frontend.suggestion 0 0
               (with_priority (mkTask "t" High Todo None 0) Medium)) = Some Low /\
  suggested (Frontend.suggestion 0 0
               (with_priority (mkTask "t" High Todo None 0) Low)) = Some Low /\
  Low = Low.
Proof.
  split; [reflexivity | split; [reflexivity | split; [reflexivity |]]].
  apply (suggestions_settle_after_two_rounds 0 0 0 0
           (mkTask "t" High Todo None 0) Medium Low Low); reflexivity.
Defined.

(** One round is not enough: a task with priority high for which no rule
    fires is suggested medium, and once that is applied it is suggested
    low. *)
Example second_round_still_changes :
  suggested (Frontend.suggestion 0 0 (mkTask "t" High Todo None 0)) = Some Medium /\
  suggested (Frontend.suggestion 0 0
               (with_priority (mkTask "t" High Todo None 0) Medium)) = Some Low.
Proof. split; reflexivity. Qed.

(** ** Applying a suggestion to the task list *)

Lemma updateTask_length (clock : nat -> string) (taskId : string)
    (updates : App.Updates) (tasks : list App.Task) :
  length (App.updateTask clock taskId updates tasks) = length tasks.
Proof.
  revert clock. induction tasks as [| t rest IH]; intros clock; [reflexivity |].
  cbn [App.updateTask]. destruct (String.eqb (App.id t) taskId);
    cbn [length]; rewrite IH; reflexivity.
Qed.

Lemma updateTask_nth (clock : nat -> string) (taskId : string)
    (updates : App.Updates) (tasks : list App.Task) (n : nat) (t : App.Task) :
  nth_error tasks n = Some t ->
  nth_error (App.updateTask clock taskId updates tasks) n
  = Some (if String.eqb (App.id t) taskId
          then App.merged t updates
                 (clock (App.matches_before taskId n tasks))
          else t).
Proof.
  revert clock n. induction tasks as [| t0 rest IH]; intros clock n Hn.
  - destruct n; discriminate.
  - destruct n as [| n].
    + injection Hn as ->. cbn [App.updateTask].
      destruct (String.eqb (App.id t) taskId); reflexivity.
    + cbn [nth_error] in Hn. cbn [App.updateTask].
      unfold App.matches_before. cbn [firstn filter].
      destruct (String.eqb (App.id t0) taskId); cbn [nth_error length].
      * rewrite (IH (fun k => clock (S k)) n Hn). reflexivity.
      * rewrite (IH clock n Hn). reflexivity.
Qed.

Lemma updateTask_unknown_id (clock : nat -> string) (taskId : string)
    (updates : App.Updates) (tasks : list App.Task) :
  App.find_task taskId tasks = None ->
  App.updateTask clock taskId updates tasks = tasks.
Proof.
  unfold App.find_task. revert clock.
  induction tasks as [| t rest IH]; intros clock; [reflexivity |].
  cbn [find App.updateTask].
  destruct (String.eqb (App.id t) taskId); [discriminate |].
  intros Hnone. rewrite (IH clock Hnone). reflexivity.
Qed.

Lemma find_task_updated (clock : nat -> string) (taskId : string)
    (p : Priority) (tasks : list App.Task) :
  App.find_task taskId (App.updateTask clock taskId (App.priority_only p) tasks)
  = option_map (fun t => App.merged t (App.priority_only p) (clock O))
               (App.find_task taskId tasks).
Proof.
  unfold App.find_task. revert clock.
  induction tasks as [| t rest IH]; intros clock; [reflexivity |].
  cbn [find App.updateTask].
  destruct (String.eqb (App.id t) taskId) eqn:Hid.
  - cbn [find App.merged App.id App.priority_only App.set_id App.spread].
    rewrite Hid. reflexivity.
  - cbn [find]. rewrite Hid. apply IH.
Qed.

(** X8. Applying a suggestion sets the priority of the tasks with the
    suggestion's task id and stamps their [updatedAt] with the time of the
    update; every other field of those tasks is kept, the tasks with
    another id are kept whole, and the list keeps its length and order. An
    id that no task has changes nothing. Afterwards the component no
    longer shows the applied suggestion, and the id is in the set of
    applied suggestions, which loses no member. On the fields that the
    prioritisation reads, the update is [with_priority]. *)
Theorem applied_suggestion_is_no_longer_shown
    (clock : nat -> string) (due_time : option string -> option Z)
    (taskId : string) (p : Priority)
    (tasks : list App.Task) (appliedSuggestions : list string) :
  let after :=
    fst (App.handleApplySuggestion clock taskId p tasks appliedSuggestions) in
  let applied :=
    snd (App.handleApplySuggestion clock taskId p tasks appliedSuggestions) in
  App.shown after taskId p = false /\
  length after = length tasks /\
  (forall n t, nth_error tasks n = Some t ->
     nth_error after n
     = Some (if String.eqb (App.id t) taskId
             then App.mkTask (App.id t) (App.title t) (App.description t)
                    (App.projectId t) p (App.status t) (App.dueDate t)
                    (App.createdAt t)
                    (clock (App.matches_before taskId n tasks))
                    (App.timeSpent t) (App.isTimerRunning t)
                    (App.timerStartTime t)
             else t)) /\
  (App.find_task taskId tasks = None -> after = tasks) /\
  In taskId applied /\
  (forall x, In x appliedSuggestions -> In x applied) /\
  map (scoring_view due_time) after
  = map (fun t => if String.eqb (id t) taskId then with_priority t p else t)
        (map (scoring_view due_time) tasks).
Proof.
  cbv zeta. unfold App.handleApplySuggestion. cbn [fst snd].
  split; [| split; [| split; [| split; [| split; [| split]]]]].
  - unfold App.shown. rewrite find_task_updated.
    destruct (App.find_task taskId tasks) as [t|]; [| reflexivity].
    cbn. destruct p; reflexivity.
  - apply updateTask_length.
  - intros n t Hn. rewrite (updateTask_nth _ _ _ _ _ _ Hn). reflexivity.
  - apply updateTask_unknown_id.
  - destruct (existsb (String.eqb taskId) appliedSuggestions) eqn:Hex.
    + apply existsb_exists in Hex. destruct Hex as (x & Hx & Heq).
      apply String.eqb_eq in Heq. subst x. exact Hx.
    + apply in_or_app. right. left. reflexivity.
  - intros x Hx.
    destruct (existsb (String.eqb taskId) appliedSuggestions);
      [exact Hx | apply in_or_app; left; exact Hx].
  - rewrite map_map. revert clock.
    induction tasks as [| t rest IH]; intros clock; [reflexivity |].
    cbn [App.updateTask map scoring_view id].
    destruct (String.eqb (App.id t) taskId);
      cbn [map]; rewrite IH; reflexivity.
Qed.

(** Applied to a list in which two tasks carry the id, both get the
    priority, each with its own reading of the clock, and the third task
    is as it was. *)
Example apply_suggestion_concrete :
  App.handleApplySuggestion
    (fun k => match k with O => "2024-01-01T00:00:00.000Z"
                         | _ => "2024-01-01T00:00:00.001Z" end)
    "a" High
    [ App.mkTask "a" "one" "" "p" Low Todo None "c1" "u1" 3 false None;
      App.mkTask "b" "two" "" "p" Low Todo (Some "d") "c2" "u2" 0 true (Some 5);
      App.mkTask "a" "three" "x" "q" Medium InProgress None "c3" "u3" 9 false None ]
    [ "b" ]
  = ([ App.mkTask "a" "one" "" "p" High Todo None "c1"
         "2024-01-01T00:00:00.000Z" 3 false None;
       App.mkTask "b" "two" "" "p" Low Todo (Some "d") "c2" "u2" 0 true (Some 5);
       App.mkTask "a" "three" "x" "q" High InProgress None "c3"
         "2024-01-01T00:00:00.001Z" 9 false None ],
     [ "b"; "a" ]).
Proof. reflexivity. Qed.

(** ** More about the [POST /prioritize] handler *)

Ltac handler_cases w :=
  destruct w as [tf pf m tfa c r];
  destruct tf as [[| t0 ts] |]; destruct pf as [[] |];
  destruct m as [| [v |]]; destruct tfa as [ta |].

Ltac throws_here :=
  first [ left; reflexivity
        | right; left; reflexivity
        | right; right; eexists; repeat split; discriminate ].

(** X9. The handler always answers, with status 200 or 500, and the answer
    is the 500 error exactly when its [try] block throws and the query of
    the tasks in the [catch] block rejects as well: a failure of the remote
    model alone is never reported as an error. *)
Theorem prioritize_error_iff (w : world) :
  exists r : response,
    sent w = Some r /\
    (status_code r = 200 \/ status_code r = 500) /\
    (status_code r = 500 <-> try_block_throws w /\ tasks_found_again w = None) /\
    (status_code r = 500 ->
     body r = VObj [("message", VStr "Server error generating prioritization")]).
Proof.
  unfold sent, try_block_throws. handler_cases w;
    cbn -[Backend.generateRuleBasedPrioritization];
    eexists; (split; [reflexivity |]);
    cbn -[Backend.generateRuleBasedPrioritization];
    (split; [auto |]); (split; [| intros H; first [reflexivity | discriminate H]]);
    (split;
     [ intros H; first [ discriminate H | split; [throws_here | reflexivity] ]
     | intros [Hthrow Hagain];
       first [ reflexivity
             | discriminate Hagain
             | destruct Hthrow as [H | [H | (l & H1 & H2 & H3)]];
               first [ discriminate
                     | injection H1 as <-; contradiction ] ] ]).
Qed.

(** X10. The handler calls the remote model at most once and the scoring
    function at most once, and makes at most five calls in all; it calls
    the model only when both queries succeeded and found a task; and when
    it has called the model, it runs the scoring function exactly when the
    call rejected or the reply did not parse. *)
Theorem prioritize_call_discipline (w : world) :
  (length (filter (event_eqb RemoteModel) (calls w)) <= 1)%nat /\
  (length (filter (event_eqb RuleBased) (calls w)) <= 1)%nat /\
  (length (calls w) <= 5)%nat /\
  (In RemoteModel (calls w) -> exists tasks, reaches_model w tasks) /\
  (In RemoteModel (calls w) ->
   (In RuleBased (calls w) <->
    model w = CallFails /\ tasks_found_again w <> None \/
    model w = Content None)).
Proof.
  unfold calls, reaches_model. handler_cases w;
    cbn -[Backend.generateRuleBasedPrioritization];
    (split; [lia |]); (split; [lia |]); (split; [lia |]);
    (split;
     [ intros Hin;
       first [ eexists; repeat split; discriminate
             | exfalso; repeat (destruct Hin as [Hin | Hin]);
               first [discriminate Hin | exact Hin] ]
     | intros Hin; split;
       [ intros Hrule;
         first [ left; split; [reflexivity | discriminate]
               | right; reflexivity
               | exfalso; repeat (destruct Hrule as [Hrule | Hrule]);
                 first [discriminate Hrule | exact Hrule]
               | exfalso; repeat (destruct Hin as [Hin | Hin]);
                 first [discriminate Hin | exact Hin] ]
       | intros [[Hm Ha] | Hm];
         first [ discriminate Hm
               | exfalso; apply Ha; reflexivity
               | simpl; tauto
               | exfalso; repeat (destruct Hin as [Hin | Hin]);
                 first [discriminate Hin | exact Hin] ] ] ]).
Qed.

(** X11. When the handler reaches the remote model and the reply parses,
    it answers with the parsed reply as it is, whatever JSON value that
    is, and does not run the scoring function. When the reply does not
    parse, it answers with the rule-based envelope for the tasks it
    fetched; when the call rejects, with the rule-based envelope for the
    tasks it fetches again in the [catch] block. *)
Theorem prioritize_paths (w : world) (tasks : list Task) :
  reaches_model w tasks ->
  (forall v, model w = Content (Some v) ->
     sent w = Some (mkResponse 200 v) /\ ~ In RuleBased (calls w)) /\
  (model w = Content None ->
     sent w = Some (mkResponse 200
                      (Backend.generateRuleBasedPrioritization
                         (clock w) (random w) tasks)) /\
     calls w = [FindTasks; FindProjects; RemoteModel; RuleBased]) /\
  (forall again, model w = CallFails -> tasks_found_again w = Some again ->
     sent w = Some (mkResponse 200
                      (Backend.generateRuleBasedPrioritization
                         (clock w) (random w) again)) /\
     calls w = [FindTasks; FindProjects; RemoteModel; FindTasks; RuleBased]).
Proof.
  intros (Htasks & Hne & Hprojects).
  destruct tasks as [| t0 ts]; [contradiction |].
  unfold sent, calls, prioritize. rewrite Htasks, Hprojects.
  split; [| split].
  - intros v Hm. rewrite Hm. cbn. split; [reflexivity |].
    intros [H | [H | [H | []]]]; discriminate H.
  - intros Hm. rewrite Hm. cbn -[Backend.generateRuleBasedPrioritization].
    split; reflexivity.
  - intros again Hm Ha. rewrite Hm, Ha.
    cbn -[Backend.generateRuleBasedPrioritization]. split; reflexivity.
Qed.

Lemma prioritize_paths_witness :
  sent (mkWorld (Some [mkTask "t" Low Todo None 0]) (Some tt)
          (Content (Some VNull)) None 0 (fun _ => 0%Q))
  = Some (mkResponse 200 VNull).
Proof.
  destruct (prioritize_paths
              (mkWorld (Some [mkTask "t" Low Todo None 0]) (Some tt)
                 (Content (Some VNull)) None 0 (fun _ => 0%Q))
              [mkTask "t" Low Todo None 0]) as (Hparsed & _).
  - repeat split. discriminate.
  - destruct (Hparsed VNull eq_refl) as [Hsent _]. exact Hsent.
Defined.

(** ** The weekly job *)

(** X12. The priority score that the weekly job stores for a task is the
    score of the rule-based prioritisation for that task at the same
    time. *)
Theorem weekly_score_is_fallback_score (now : Z) (task : Task) :
  Jobs.priorityScore now task = Backend.score now task /\
  Jobs.priorityScore now task = Frontend.score now task /\
  5 <= Jobs.priorityScore now task <= 105.
Proof.
  assert (H : Jobs.priorityScore now task = Backend.score now task).
  { unfold Jobs.priorityScore, Backend.score, Backend.score_reasons.
    destruct (dueDate task) as [due|];
      [destruct (daysUntil now due <=? 1);
         [| destruct (daysUntil now due <=? 3);
            [| destruct (daysUntil now due <=? 7)]] |];
      destruct (priority task); destruct (timeSpent task >? 120);
      destruct (status_eqb (status task) InProgress); reflexivity. }
  split; [exact H | split; [exact H |]].
  rewrite H. apply score_bounds.
Qed.

(** ** The timer routes *)

Section TimerRoutes.

Import Timer.

Variable cast : string -> option ObjectId.
Variables (user id : string) (now : Z).

Let mine (d : Doc) : bool := String.eqb (userId d) user && isTimerRunning d.
Let target (oid : ObjectId) (d : Doc) : bool :=
  String.eqb (_id d) oid && String.eqb (userId d) user.
Let others (d : Doc) : bool := negb (String.eqb (userId d) user).

Lemma running_after_halt (db : collection) :
  running user (updateMany mine halt db) = [].
Proof.
  unfold running, updateMany. induction db as [| d rest IH]; [reflexivity |].
  cbn [map filter]. destruct (mine d) eqn:Hm.
  - cbn [halt userId isTimerRunning]. rewrite andb_false_r. exact IH.
  - change (String.eqb (userId d) user && isTimerRunning d) with (mine d).
    rewrite Hm. exact IH.
Qed.

Lemma run_after_none_running (oid : ObjectId) (db : collection) :
  running user db = [] ->
  running user (snd (findOneAndUpdate (target oid) (run now) db))
  = match fst (findOneAndUpdate (target oid) (run now) db) with
    | Some d => [d]
    | None => []
    end /\
  match fst (findOneAndUpdate (target oid) (run now) db) with
  | Some d => _id d = oid /\ userId d = user /\ isTimerRunning d = true /\
              timerStartTime d = Some now /\ status d = InProgress
  | None => True
  end.
Proof.
  unfold running. induction db as [| d rest IH]; [intros _; split; reflexivity |].
  cbn [filter findOneAndUpdate].
  destruct (String.eqb (userId d) user && isTimerRunning d) eqn:Hmine;
    [discriminate |].
  intros Hrest. destruct (target oid d) eqn:Ht.
  - unfold target in Ht. apply andb_prop in Ht. destruct Ht as [Hid Hu].
    cbn [fst snd filter run userId isTimerRunning]. rewrite Hu, Hrest.
    cbn [andb]. split; [reflexivity |].
    cbn [_id timerStartTime status].
    apply String.eqb_eq in Hid. apply String.eqb_eq in Hu. auto.
  - destruct (findOneAndUpdate (target oid) (run now) rest)
      as [found rest'] eqn:Hrec.
    cbn [fst snd filter]. rewrite Hmine. exact (IH Hrest).
Qed.

Lemma others_after_updateMany (f : Doc -> bool) (u : Doc -> Doc)
    (keep : Doc -> bool) (db : collection) :
  (forall d, userId (u d) = userId d) ->
  (forall d, f d = true -> keep d = false) ->
  (forall d, keep (u d) = keep d) ->
  filter keep (updateMany f u db) = filter keep db.
Proof.
  intros Hu Hf Hk. unfold updateMany.
  induction db as [| d rest IH]; [reflexivity |].
  cbn [map filter]. destruct (f d) eqn:Hfd.
  - rewrite Hk, (Hf d Hfd). exact IH.
  - rewrite IH. reflexivity.
Qed.

Lemma others_after_findOneAndUpdate (f : Doc -> bool) (u : Doc -> Doc)
    (keep : Doc -> bool) (db : collection) :
  (forall d, f d = true -> keep d = false) ->
  (forall d, keep (u d) = keep d) ->
  filter keep (snd (findOneAndUpdate f u db)) = filter keep db.
Proof.
  intros Hf Hk. induction db as [| d rest IH]; [reflexivity |].
  cbn [findOneAndUpdate]. destruct (f d) eqn:Hfd.
  - cbn [snd filter]. rewrite Hk, (Hf d Hfd). reflexivity.
  - destruct (findOneAndUpdate f u rest) as [found rest'].
    cbn [snd filter] in *. rewrite IH. reflexivity.
Qed.

Lemma map_after_updateMany {A : Type} (g : Doc -> A) (f : Doc -> bool)
    (u : Doc -> Doc) (db : collection) :
  (forall d, g (u d) = g d) ->
  map g (updateMany f u db) = map g db.
Proof.
  intros Hg. unfold updateMany. rewrite map_map. apply map_ext.
  intros d. destruct (f d); [apply Hg | reflexivity].
Qed.

Lemma map_after_findOneAndUpdate {A : Type} (g : Doc -> A) (f : Doc -> bool)
    (u : Doc -> Doc) (db : collection) :
  (forall d, g (u d) = g d) ->
  map g (snd (findOneAndUpdate f u db)) = map g db.
Proof.
  intros Hg. induction db as [| d rest IH]; [reflexivity |].
  cbn [findOneAndUpdate]. destruct (f d).
  - cbn [snd map]. rewrite Hg. reflexivity.
  - destruct (findOneAndUpdate f u rest) as [found rest'].
    cbn [snd map] in *. rewrite IH. reflexivity.
Qed.

Lemma others_after_halt (db : collection) :
  filter others (updateMany mine halt db) = filter others db.
Proof.
  apply others_after_updateMany.
  - reflexivity.
  - intros d Hd. unfold mine in Hd. apply andb_prop in Hd.
    destruct Hd as [Hu _]. unfold others. rewrite Hu. reflexivity.
  - reflexivity.
Qed.

Lemma others_after_run (oid : ObjectId) (db : collection) :
  filter others (snd (findOneAndUpdate (target oid) (run now) db))
  = filter others db.
Proof.
  apply others_after_findOneAndUpdate.
  - intros x Hx. unfold target in Hx. apply andb_prop in Hx.
    destruct Hx as [_ Hu]. unfold others. rewrite Hu. reflexivity.
  - reflexivity.
Qed.

(** X13. After a start request whose first database call succeeds, the
    answer is 200, 404 or 500 and the user has at most one running timer,
    which is then on the requested task, started at [now], with the task in
    progress: the timers that the user had running are stopped on every
    path. There is exactly one, the task of the reply, when the answer is
    200, and none when the answer is 404. When the answer is 500 there is
    none if the population of the project did not reject; a running timer
    after a 500 means that the update was written and the population then
    rejected. When only the population rejects a request that would be
    answered 200, the answer is 500 without a task, and the collection is
    the one that the answer 200 leaves: the timer runs though the request
    failed. The tasks of the other users are as before. *)
Theorem start_leaves_one_timer (f : faults) (db : collection) :
  first_rejects f = false ->
  let r := fst (start cast f user id now db) in
  let db' := snd (start cast f user id now db) in
  let granted := fst (start cast no_faults user id now db) in
  (code r = 200 \/ code r = 404 \/ code r = 500) /\
  (length (running user db') <= 1)%nat /\
  (forall d, In d (running user db') ->
     cast id = Some (_id d) /\ timerStartTime d = Some now /\
     status d = InProgress) /\
  (code r = 200 -> exists d, running user db' = [d] /\ task r = Some d) /\
  (code r = 404 -> running user db' = []) /\
  (code r = 500 -> populate_rejects f = false -> running user db' = []) /\
  (code r <> 200 -> running user db' <> [] ->
   populate_rejects f = true /\ second_rejects f = false /\
   code granted = 200) /\
  (populate_rejects f = true -> second_rejects f = false ->
   code granted = 200 ->
   code r = 500 /\ task r = None /\
   db' = snd (start cast no_faults user id now db) /\
   exists d, running user db' = [d]) /\
  filter (fun d => negb (String.eqb (userId d) user)) db'
  = filter (fun d => negb (String.eqb (userId d) user)) db.
Proof.
  intros Hfirst. cbv zeta. unfold start. rewrite Hfirst.
  cbn [no_faults first_rejects second_rejects populate_rejects].
  fold mine.
  pose proof (running_after_halt db) as Hhalt.
  pose proof (others_after_halt db) as Hothers1.
  destruct (cast id) as [oid |] eqn:Hcast.
  - fold (target oid).
    pose proof (run_after_none_running oid _ Hhalt) as [Hrun Hdoc].
    pose proof (others_after_run oid (updateMany mine halt db)) as Hothers2.
    rewrite Hothers1 in Hothers2.
    destruct (findOneAndUpdate (target oid) (run now) (updateMany mine halt db))
      as [[d |] db2]; cbn [fst snd] in Hrun, Hdoc, Hothers2.
    + destruct Hdoc as (Hid & _ & _ & Hstarted & Hstatus).
      assert (Hone : forall x, In x [d] ->
                Some oid = Some (_id x) /\ timerStartTime x = Some now /\
                status x = InProgress).
      { intros x [<- | []]. rewrite Hid. auto. }
      destruct (second_rejects f), (populate_rejects f);
        cbn [fst snd code task]; rewrite ?Hhalt, ?Hrun; cbn [length In];
        (split; [auto |]); (split; [lia |]);
        (split; [first [exact Hone | intros x []] |]);
        (split; [first [discriminate | intros _; exists d; auto] |]);
        (split; [first [discriminate | reflexivity] |]);
        (split; [first [discriminate | reflexivity] |]);
        (split; [first [ intros H; contradiction H; reflexivity
                       | intros _ H; contradiction H; reflexivity
                       | auto ] |]);
        (split; [first [ discriminate
                       | intros _; discriminate
                       | intros _ _ _; repeat split; try reflexivity;
                         exists d; reflexivity ] |]);
        first [exact Hothers1 | exact Hothers2].
    + destruct (second_rejects f), (populate_rejects f);
        cbn [fst snd code task]; rewrite ?Hhalt, ?Hrun; cbn [length In];
        (split; [auto |]); (split; [lia |]);
        (split; [intros x [] |]);
        (split; [discriminate |]);
        (split; [reflexivity |]);
        (split; [reflexivity |]);
        (split; [intros _ H; contradiction H; reflexivity |]);
        (split; [first [ discriminate
                       | intros _; discriminate
                       | intros _ _; discriminate ] |]);
        first [exact Hothers1 | exact Hothers2].
  - cbn [fst snd code task]. rewrite Hhalt. cbn [length In].
    split; [auto |]. split; [lia |]. split; [intros x [] |].
    split; [discriminate |]. split; [reflexivity |]. split; [reflexivity |].
    split; [intros _ H; contradiction H; reflexivity |].
    split; [intros _ _; discriminate | exact Hothers1].
Qed.

(** X14. A start request never changes the time spent or the sessions of
    any task: the time that a running timer has accumulated when the
    request stops or restarts it is not recorded. *)
Theorem start_records_no_time (f : faults) (db : collection) :
  map timeSpent (snd (start cast f user id now db)) = map timeSpent db /\
  map timerSessions (snd (start cast f user id now db)) = map timerSessions db /\
  map _id (snd (start cast f user id now db)) = map _id db.
Proof.
  unfold start. destruct (first_rejects f); [repeat split |].
  fold mine.
  destruct (cast id) as [oid |];
    [| cbn [snd]; repeat split; apply map_after_updateMany; reflexivity].
  destruct (second_rejects f).
  - cbn [snd]. repeat split; apply map_after_updateMany; reflexivity.
  - fold (target oid).
    pose proof (fun A g H => @map_after_findOneAndUpdate A g (target oid)
                               (run now) (updateMany mine halt db) H) as Hmap.
    destruct (findOneAndUpdate (target oid) (run now) (updateMany mine halt db))
      as [[d|] db2]; [destruct (populate_rejects f) |]; cbn [snd] in *;
      repeat split;
      (rewrite Hmap; [apply map_after_updateMany; reflexivity | reflexivity]).
Qed.

Lemma ids_unique (db : collection) (x y : Doc) :
  NoDup (map _id db) -> In x db -> In y db -> _id x = _id y -> x = y.
Proof.
  induction db as [| d rest IH]; intros Hnd Hx Hy Hid; [destruct Hx |].
  cbn [map] in Hnd. apply NoDup_cons_iff in Hnd. destruct Hnd as [Hnotin Hnd].
  destruct Hx as [-> | Hx], Hy as [-> | Hy].
  - reflexivity.
  - exfalso. apply Hnotin. rewrite Hid. apply in_map. exact Hy.
  - exfalso. apply Hnotin. rewrite <- Hid. apply in_map. exact Hx.
  - exact (IH Hnd Hx Hy Hid).
Qed.

Lemma findOne_unique (f : Doc -> bool) (db : collection) (d : Doc) :
  NoDup (map _id db) -> In d db -> f d = true ->
  (forall x, f x = true -> _id x = _id d) ->
  findOne f db = Some d.
Proof.
  intros Hnd Hin Hf Hid. unfold findOne.
  destruct (find f db) as [x|] eqn:Hfind.
  - apply find_some in Hfind. destruct Hfind as [Hx Hfx].
    f_equal. exact (ids_unique db x d Hnd Hx Hin (Hid x Hfx)).
  - exfalso. pose proof (find_none f db Hfind d Hin) as Hnone. congruence.
Qed.

Lemma findOneAndUpdate_unique (f : Doc -> bool) (u : Doc -> Doc)
    (db : collection) (d : Doc) :
  NoDup (map _id db) -> In d db -> f d = true ->
  (forall x, f x = true -> _id x = _id d) ->
  findOneAndUpdate f u db
  = (Some (u d),
     updateMany (fun x => String.eqb (_id x) (_id d)) u db).
Proof.
  induction db as [| d0 rest IH]; intros Hnd Hin Hf Hid; [destruct Hin |].
  cbn [map] in Hnd. apply NoDup_cons_iff in Hnd. destruct Hnd as [Hnotin Hnd].
  unfold updateMany. cbn [findOneAndUpdate map].
  destruct (f d0) eqn:Hf0.
  - assert (Heq : d0 = d).
    { destruct Hin as [Heq | Hin]; [exact Heq |].
      exfalso. apply Hnotin. rewrite (Hid d0 Hf0). apply in_map. exact Hin. }
    subst d0. rewrite String.eqb_refl.
    assert (Hrest : map (fun x => if String.eqb (_id x) (_id d) then u x else x)
                      rest = rest).
    { rewrite <- (map_id rest) at 2. apply map_ext_in.
      intros x Hx.
      destruct (String.eqb (_id x) (_id d)) eqn:Hxd; [| reflexivity].
      exfalso. apply Hnotin. apply String.eqb_eq in Hxd. rewrite <- Hxd.
      apply in_map. exact Hx. }
    rewrite Hrest. reflexivity.
  - destruct Hin as [-> | Hin]; [congruence |].
    rewrite (IH Hnd Hin Hf Hid). unfold updateMany.
    destruct (String.eqb (_id d0) (_id d)) eqn:H0d; [| reflexivity].
    exfalso. apply Hnotin. apply String.eqb_eq in H0d. rewrite H0d.
    apply in_map. exact Hin.
Qed.

Lemma findByIdAndUpdate_found (oid : ObjectId) (u : Doc -> Doc)
    (db : collection) (d : Doc) :
  In d db -> String.eqb (_id d) oid = true ->
  exists d' db', findByIdAndUpdate oid u db = (Some d', db').
Proof.
  unfold findByIdAndUpdate.
  induction db as [| d0 rest IH]; intros Hin Hid; [destruct Hin |].
  cbn [findOneAndUpdate]. destruct (String.eqb (_id d0) oid) eqn:H0.
  - eauto.
  - destruct Hin as [-> | Hin]; [congruence |].
    destruct (IH Hin Hid) as (d' & db' & Heq). rewrite Heq. eauto.
Qed.

(** What the stop route makes of the task whose timer ran since
    [started]. *)
Let stopped (d : Doc) (started : Z) : Doc :=
  mkDoc (_id d) (userId d) (status d)
        (timeSpent d + (now - started) / 60000) false None
        (timerSessions d
           ++ [mkSession started now ((now - started) / 60000) "work"]).

Lemma stop_running_timer (db : collection) (d : Doc) (started : Z) :
  NoDup (map _id db) -> In d db ->
  cast id = Some (_id d) -> userId d = user -> isTimerRunning d = true ->
  timerStartTime d = Some started ->
  stop cast no_faults user id now db
  = (mkReply 200 "Timer stopped successfully" (Some (stopped d started))
       (Some ((now - started) / 60000)),
     updateMany (fun x => String.eqb (_id x) (_id d))
                (fun _ => stopped d started) db).
Proof.
  intros Hnd Hin Hid Hu Hrun Hstart. unfold stop. rewrite Hid.
  cbn [no_faults first_rejects second_rejects populate_rejects].
  rewrite (findOne_unique _ db d Hnd Hin).
  - rewrite Hstart. unfold findByIdAndUpdate.
    rewrite (findOneAndUpdate_unique _ _ db d Hnd Hin).
    + f_equal; try reflexivity.
      unfold updateMany. apply map_ext_in. intros x Hx.
      destruct (String.eqb (_id x) (_id d)) eqn:Hxid; [| reflexivity].
      apply String.eqb_eq in Hxid.
      rewrite (ids_unique db x d Hnd Hx Hin); [reflexivity | congruence].
    + apply String.eqb_refl.
    + intros x Hx. apply String.eqb_eq in Hx. congruence.
  - rewrite Hu, Hrun, !String.eqb_refl. reflexivity.
  - intros x Hx. apply andb_prop in Hx. destruct Hx as [Hx _].
    apply andb_prop in Hx. destruct Hx as [Hx _].
    apply String.eqb_eq in Hx. congruence.
Qed.

(** X15. In a collection with distinct ids, stopping the running timer of
    the user's task answers 200 with the whole minutes elapsed since the
    start, [floor((now - started) / 60000)], as the session duration; the
    task gets that many minutes added to its time spent, one session with
    that duration appended, its timer cleared, and no other task changes.
    Less than a minute adds nothing; with [started <= now] the time spent
    does not decrease. *)
Theorem stop_adds_whole_minutes (db : collection) (d : Doc) (started : Z) :
  NoDup (map _id db) -> In d db ->
  cast id = Some (_id d) -> userId d = user -> isTimerRunning d = true ->
  timerStartTime d = Some started ->
  let r := fst (stop cast no_faults user id now db) in
  let db' := snd (stop cast no_faults user id now db) in
  let minutes := (now - started) / 60000 in
  code r = 200 /\ sessionDuration r = Some minutes /\
  60000 * minutes <= now - started < 60000 * minutes + 60000 /\
  (exists d', task r = Some d' /\ In d' db' /\
     _id d' = _id d /\ userId d' = user /\ status d' = status d /\
     timeSpent d' = timeSpent d + minutes /\
     isTimerRunning d' = false /\ timerStartTime d' = None /\
     timerSessions d'
       = (timerSessions d ++ [mkSession started now minutes "work"])%list) /\
  (forall x, In x db -> _id x <> _id d -> In x db') /\
  length db' = length db /\
  (0 <= now - started < 60000 -> minutes = 0) /\
  (started <= now -> 0 <= minutes).
Proof.
  intros Hnd Hin Hid Hu Hrun Hstart. cbv zeta.
  rewrite (stop_running_timer db d started Hnd Hin Hid Hu Hrun Hstart).
  cbn [fst snd code sessionDuration task].
  pose proof (Z.div_mod (now - started) 60000 ltac:(lia)) as Hdm.
  pose proof (Z.mod_pos_bound (now - started) 60000 ltac:(lia)) as Hmod.
  split; [reflexivity | split; [reflexivity | split; [lia |]]].
  split; [| split; [| split; [| split]]].
  - exists (stopped d started). split; [reflexivity |]. split.
    + unfold updateMany. apply in_map_iff. exists d. split; [| exact Hin].
      rewrite String.eqb_refl. reflexivity.
    + unfold stopped. cbn. repeat split; assumption || reflexivity.
  - intros x Hx Hxid. unfold updateMany. apply in_map_iff. exists x.
    split; [| exact Hx]. apply String.eqb_neq in Hxid. rewrite Hxid.
    reflexivity.
  - unfold updateMany. apply length_map.
  - intros Hshort. apply Z.div_small. exact Hshort.
  - intros Hle. apply Z.div_pos; lia.
Qed.

(** X16. A stop request answered 404 changes nothing in the collection,
    and so does one answered 500 unless the population of the project
    rejected: when only the population rejects a request that would be
    answered 200, the answer is 500 and the collection is the one that the
    answer 200 leaves, with the timer stopped and the session recorded. A
    request whose id does not cast to an [ObjectId] is answered 500 and
    changes nothing. With an id that casts and no database fault, the
    answer is 404 exactly when the user has no task with that id and a
    running timer, and 500 when that task has a running timer but no start
    time. *)
Theorem stop_refused_changes_nothing (f : faults) (db : collection) :
  let r := fst (stop cast f user id now db) in
  let db' := snd (stop cast f user id now db) in
  let granted := stop cast no_faults user id now db in
  (code r = 200 \/ code r = 404 \/ code r = 500) /\
  (code r = 404 -> db' = db) /\
  (code r = 500 -> populate_rejects f = false -> db' = db) /\
  (code r <> 200 -> db' <> db ->
   populate_rejects f = true /\ first_rejects f = false /\
   second_rejects f = false /\ code (fst granted) = 200) /\
  (populate_rejects f = true -> first_rejects f = false ->
   second_rejects f = false -> code (fst granted) = 200 ->
   code r = 500 /\ task r = None /\ db' = snd granted) /\
  (cast id = None ->
   stop cast f user id now db
   = (mkReply 500 "Server error stopping timer" None None, db)) /\
  (forall oid, cast id = Some oid ->
     (code (fst granted) = 404 <->
      forall d, In d db -> _id d = oid -> userId d = user ->
                isTimerRunning d = false)) /\
  (forall oid d, cast id = Some oid ->
     findOne (fun d => String.eqb (_id d) oid && String.eqb (userId d) user
                       && isTimerRunning d) db = Some d ->
     timerStartTime d = None ->
     code (fst granted) = 500).
Proof.
  cbv zeta.
  split; [| split; [| split; [| split; [| split; [| split; [| split]]]]]].
  - unfold stop. destruct (cast id) as [oid |]; [| auto].
    destruct (first_rejects f); [auto |].
    destruct (findOne _ db) as [d |]; [| auto].
    destruct (timerStartTime d); [| auto].
    destruct (second_rejects f); [auto |].
    destruct (findByIdAndUpdate _ _ db) as [[u |] db'];
      [destruct (populate_rejects f) |]; auto.
  - unfold stop. destruct (cast id) as [oid |]; [| reflexivity].
    destruct (first_rejects f); [reflexivity |].
    destruct (findOne _ db) as [d |]; [| reflexivity].
    destruct (timerStartTime d); [| reflexivity].
    destruct (second_rejects f); [reflexivity |].
    destruct (findByIdAndUpdate _ _ db) as [[u |] db'];
      [destruct (populate_rejects f) |]; discriminate.
  - unfold stop. destruct (cast id) as [oid |]; [| reflexivity].
    destruct (first_rejects f); [reflexivity |].
    destruct (findOne _ db) as [d |]; [| reflexivity].
    destruct (timerStartTime d); [| reflexivity].
    destruct (second_rejects f); [reflexivity |].
    destruct (findByIdAndUpdate _ _ db) as [[u |] db'];
      [destruct (populate_rejects f) |]; cbn [fst snd code];
      discriminate.
  - unfold stop.
    cbn [no_faults first_rejects second_rejects populate_rejects].
    destruct (cast id) as [oid |];
      [| intros _ H; contradiction H; reflexivity].
    destruct (first_rejects f); [intros _ H; contradiction H; reflexivity |].
    destruct (findOne _ db) as [d |];
      [| intros _ H; contradiction H; reflexivity].
    destruct (timerStartTime d);
      [| intros _ H; contradiction H; reflexivity].
    destruct (second_rejects f); [intros _ H; contradiction H; reflexivity |].
    destruct (findByIdAndUpdate _ _ db) as [[u |] db'];
      [destruct (populate_rejects f) |]; cbn [fst snd code].
    + auto.
    + intros H; contradiction H; reflexivity.
    + intros H; contradiction H; reflexivity.
  - intros Hp H1 H2. unfold stop. rewrite Hp, H1, H2.
    cbn [no_faults first_rejects second_rejects populate_rejects].
    destruct (cast id) as [oid |]; [| discriminate].
    destruct (findOne _ db) as [d |] eqn:Hfind; [| discriminate].
    destruct (timerStartTime d) as [started |]; [| discriminate].
    unfold findOne in Hfind. apply find_some in Hfind.
    destruct Hfind as [Hin Hd].
    apply andb_prop in Hd. destruct Hd as [Hd _].
    apply andb_prop in Hd. destruct Hd as [Hid _].
    destruct (findByIdAndUpdate_found oid
                (record_session (timeSpent d + (now - started) / 60000)
                   (mkSession started now ((now - started) / 60000) "work"))
                db d Hin Hid) as (u & db' & Heq).
    rewrite Heq. cbn [fst snd code task]. auto.
  - intros Hcast. unfold stop. rewrite Hcast. reflexivity.
  - intros oid Hcast. unfold stop, findOne. rewrite Hcast.
    cbn [no_faults first_rejects second_rejects populate_rejects].
    destruct (find _ db) as [d|] eqn:Hfind.
    + apply find_some in Hfind. destruct Hfind as [Hin Hd].
      apply andb_prop in Hd. destruct Hd as [Hd Hrun].
      apply andb_prop in Hd. destruct Hd as [Hid Hu].
      apply String.eqb_eq in Hid. apply String.eqb_eq in Hu.
      split.
      * destruct (timerStartTime d); [| discriminate].
        destruct (findByIdAndUpdate _ _ db) as [[u |] db']; discriminate.
      * intros Hall. rewrite (Hall d Hin Hid Hu) in Hrun. discriminate Hrun.
    + split; [| reflexivity]. intros _ d Hin Hid Hu.
      pose proof (find_none _ db Hfind d Hin) as Hnone. cbn beta in Hnone.
      rewrite Hid, Hu, !String.eqb_refl in Hnone. exact Hnone.
  - intros oid d Hcast Hfind Hnone. unfold stop. rewrite Hcast.
    cbn [no_faults first_rejects second_rejects populate_rejects].
    rewrite Hfind, Hnone. reflexivity.
Qed.

Lemma find_all_false {A : Type} (f : A -> bool) (l : list A) :
  (forall x, In x l -> f x = false) -> find f l = None.
Proof.
  induction l as [| a rest IH]; intros H; [reflexivity |].
  cbn [find]. rewrite (H a (or_introl eq_refl)).
  apply IH. intros x Hx. apply H. right. exact Hx.
Qed.

(** X17. Time is not counted twice: in a collection with distinct ids,
    once the running timer of a task has been stopped, a further stop
    request for it, at any later time, is answered 404 and changes
    nothing. *)
Theorem second_stop_is_refused
    (db : collection) (d : Doc) (started later : Z) :
  NoDup (map _id db) -> In d db ->
  cast id = Some (_id d) -> userId d = user -> isTimerRunning d = true ->
  timerStartTime d = Some started ->
  let db' := snd (stop cast no_faults user id now db) in
  stop cast no_faults user id later db'
  = (mkReply 404 "Task not found or timer not running" None None, db').
Proof.
  intros Hnd Hin Hid Hu Hrun Hstart. cbv zeta.
  rewrite (stop_running_timer db d started Hnd Hin Hid Hu Hrun Hstart).
  cbn [snd]. unfold stop at 1. rewrite Hid. cbn [no_faults first_rejects].
  unfold findOne. rewrite find_all_false; [reflexivity |].
  intros x Hx. unfold updateMany in Hx. apply in_map_iff in Hx.
  destruct Hx as (y & Hy & _).
  destruct (String.eqb (_id y) (_id d)) eqn:Hyid.
  - subst x. unfold stopped. cbn [isTimerRunning]. apply andb_false_r.
  - subst x. rewrite Hyid. reflexivity.
Qed.

(** X18. Start then stop: in a collection with distinct ids, when the user
    starts the timer of one of their tasks at [started] and stops it at
    [now], with no database fault, the stop is answered 200 and the task
    ends with its former time spent plus [floor((now - started) / 60000)]
    minutes, one more session, and the status in progress. What a timer
    that was already running on the task had accumulated before the start
    is not counted. *)
Theorem start_then_stop (db : collection) (d : Doc) (started : Z) :
  NoDup (map _id db) -> In d db ->
  cast id = Some (_id d) -> userId d = user ->
  let db1 := snd (start cast no_faults user id started db) in
  let r := fst (stop cast no_faults user id now db1) in
  let db2 := snd (stop cast no_faults user id now db1) in
  code (fst (start cast no_faults user id started db)) = 200 /\
  code r = 200 /\
  sessionDuration r = Some ((now - started) / 60000) /\
  exists d2, task r = Some d2 /\ In d2 db2 /\ _id d2 = _id d /\
    timeSpent d2 = timeSpent d + (now - started) / 60000 /\
    timerSessions d2
      = (timerSessions d
           ++ [mkSession started now ((now - started) / 60000) "work"])%list /\
    status d2 = InProgress /\ isTimerRunning d2 = false.
Proof.
  intros Hnd Hin Hid Hu. cbv zeta.
  set (d0 := if mine d then halt d else d).
  assert (Hin0 : In d0 (updateMany mine halt db)).
  { unfold updateMany. apply in_map_iff. exists d. split; [reflexivity | exact Hin]. }
  assert (Hids0 : map _id (updateMany mine halt db) = map _id db).
  { apply map_after_updateMany. reflexivity. }
  assert (Hd0 : _id d0 = _id d /\ userId d0 = user /\
                timeSpent d0 = timeSpent d /\
                timerSessions d0 = timerSessions d).
  { unfold d0. destruct (mine d); cbn; auto. }
  destruct Hd0 as (Hid0 & Hu0 & Hspent0 & Hsess0).
  assert (Hstart : start cast no_faults user id started db
                   = (mkReply 200 "Timer started successfully"
                        (Some (run started d0)) None,
                      updateMany (fun x => String.eqb (_id x) (_id d0))
                        (run started) (updateMany mine halt db))).
  { unfold start. rewrite Hid.
    cbn [no_faults first_rejects second_rejects populate_rejects].
    fold mine.
    rewrite (findOneAndUpdate_unique _ (run started) _ d0).
    - reflexivity.
    - rewrite Hids0. exact Hnd.
    - exact Hin0.
    - rewrite Hid0, Hu0, !String.eqb_refl. reflexivity.
    - intros x Hx. apply andb_prop in Hx. destruct Hx as [Hx _].
      apply String.eqb_eq in Hx. congruence. }
  rewrite Hstart. cbn [fst snd code].
  split; [reflexivity |].
  set (db1 := updateMany (fun x => String.eqb (_id x) (_id d0)) (run started)
                (updateMany mine halt db)).
  assert (Hnd1 : NoDup (map _id db1)).
  { unfold db1. rewrite map_after_updateMany by reflexivity.
    rewrite Hids0. exact Hnd. }
  assert (Hin1 : In (run started d0) db1).
  { unfold db1, updateMany at 1. apply in_map_iff. exists d0.
    split; [| exact Hin0]. rewrite String.eqb_refl. reflexivity. }
  assert (Hid1 : cast id = Some (_id (run started d0))).
  { cbn [run _id]. rewrite Hid0. exact Hid. }
  rewrite (stop_running_timer db1 (run started d0) started Hnd1 Hin1
             Hid1 Hu0 eq_refl eq_refl).
  cbn [fst snd code sessionDuration task].
  split; [reflexivity | split; [reflexivity |]].
  exists (stopped (run started d0) started). split; [reflexivity |]. split.
  - unfold updateMany at 1. apply in_map_iff. exists (run started d0).
    split; [| exact Hin1]. cbn [run _id]. rewrite String.eqb_refl.
    reflexivity.
  - unfold stopped, run. cbn. rewrite Hspent0, Hsess0. auto.
Qed.

End TimerRoutes.

Lemma stop_adds_whole_minutes_witness :
  Timer.code
    (fst (Timer.stop Some Timer.no_faults "u" "t1" 200000
            [ Timer.mkDoc "t1" "u" InProgress 10 true (Some 50000) [] ])) = 200 /\
  Timer.sessionDuration
    (fst (Timer.stop Some Timer.no_faults "u" "t1" 200000
            [ Timer.mkDoc "t1" "u" InProgress 10 true (Some 50000) [] ])) = Some 2.
Proof.
  destruct (stop_adds_whole_minutes Some "u" "t1" 200000
              [ Timer.mkDoc "t1" "u" InProgress 10 true (Some 50000) [] ]
              (Timer.mkDoc "t1" "u" InProgress 10 true (Some 50000) []) 50000)
    as (Hcode & Hdur & _).
  - repeat constructor. intros [].
  - left. reflexivity.
  - reflexivity.
  - reflexivity.
  - reflexivity.
  - reflexivity.
  - split; [exact Hcode | exact Hdur].
Defined.

Lemma second_stop_is_refused_witness :
  Timer.code
    (fst (Timer.stop Some Timer.no_faults "u" "t1" 900000
            (snd (Timer.stop Some Timer.no_faults "u" "t1" 200000
                    [ Timer.mkDoc "t1" "u" InProgress 10 true (Some 50000) [] ]))))
  = 404.
Proof.
  rewrite (second_stop_is_refused Some "u" "t1" 200000
             [ Timer.mkDoc "t1" "u" InProgress 10 true (Some 50000) [] ]
             (Timer.mkDoc "t1" "u" InProgress 10 true (Some 50000) [])
             50000 900000).
  - reflexivity.
  - repeat constructor. intros [].
  - left. reflexivity.
  - reflexivity.
  - reflexivity.
  - reflexivity.
  - reflexivity.
Defined.

Lemma start_then_stop_witness :
  Timer.sessionDuration
    (fst (Timer.stop Some Timer.no_faults "u" "t1" 200000
            (snd (Timer.start Some Timer.no_faults "u" "t1" 50000
                    [ Timer.mkDoc "t1" "u" Todo 10 false None [] ]))))
  = Some 2.
Proof.
  destruct (start_then_stop Some "u" "t1" 200000
              [ Timer.mkDoc "t1" "u" Todo 10 false None [] ]
              (Timer.mkDoc "t1" "u" Todo 10 false None []) 50000)
    as (_ & _ & Hdur & _).
  - repeat constructor. intros [].
  - left. reflexivity.
  - reflexivity.
  - reflexivity.
  - exact Hdur.
Defined.

(** The population of the project rejects after the update is written:
    the start request is answered 500, and the timer of the requested task
    runs. *)
Lemma start_leaves_one_timer_witness :
  Timer.code
    (fst (Timer.start Timer.cast_of_length_24 (Timer.mkFaults false false true)
            "u" "65f0a1b2c3d4e5f6a7b8c9d0" 7000
            [ Timer.mkDoc "65f0a1b2c3d4e5f6a7b8c9d0" "u" Todo 10 false None [];
              Timer.mkDoc "65f0a1b2c3d4e5f6a7b8c9d1" "u" InProgress 0 true
                (Some 60) [] ])) = 500 /\
  exists d,
    Timer.running "u"
      (snd (Timer.start Timer.cast_of_length_24
              (Timer.mkFaults false false true)
              "u" "65f0a1b2c3d4e5f6a7b8c9d0" 7000
              [ Timer.mkDoc "65f0a1b2c3d4e5f6a7b8c9d0" "u" Todo 10 false None [];
                Timer.mkDoc "65f0a1b2c3d4e5f6a7b8c9d1" "u" InProgress 0 true
                  (Some 60) [] ]))
    = [d].
Proof.
  destruct (start_leaves_one_timer Timer.cast_of_length_24
              "u" "65f0a1b2c3d4e5f6a7b8c9d0" 7000
              (Timer.mkFaults false false true)
              [ Timer.mkDoc "65f0a1b2c3d4e5f6a7b8c9d0" "u" Todo 10 false None [];
                Timer.mkDoc "65f0a1b2c3d4e5f6a7b8c9d1" "u" InProgress 0 true
                  (Some 60) [] ]
              eq_refl) as (_ & _ & _ & _ & _ & _ & _ & Hpop & _).
  destruct (Hpop eq_refl eq_refl eq_refl) as (Hcode & _ & _ & Hrun).
  split; [exact Hcode | exact Hrun].
Defined.

(** The same on the stop route: the answer is 500, and the time is
    recorded and the timer stopped. An id that does not cast is answered
    500, where an id that no task has is answered 404. *)
Example stop_failures_concrete :
  Timer.stop Timer.cast_of_length_24 (Timer.mkFaults false false true)
    "u" "65f0a1b2c3d4e5f6a7b8c9d0" 200000
    [ Timer.mkDoc "65f0a1b2c3d4e5f6a7b8c9d0" "u" InProgress 10 true
        (Some 50000) [] ]
  = (Timer.mkReply 500 "Server error stopping timer" None None,
     [ Timer.mkDoc "65f0a1b2c3d4e5f6a7b8c9d0" "u" InProgress 12 false None
         [ Timer.mkSession 50000 200000 2 "work" ] ]) /\
  Timer.code
    (fst (Timer.stop Timer.cast_of_length_24 Timer.no_faults "u" "1" 200000
            [ Timer.mkDoc "65f0a1b2c3d4e5f6a7b8c9d0" "u" InProgress 10 true
                (Some 50000) [] ])) = 500 /\
  Timer.code
    (fst (Timer.stop Timer.cast_of_length_24 Timer.no_faults "u"
            "65f0a1b2c3d4e5f6a7b8c9d1" 200000
            [ Timer.mkDoc "65f0a1b2c3d4e5f6a7b8c9d0" "u" InProgress 10 true
                (Some 50000) [] ])) = 404.
Proof. repeat split. Qed.

(** ** The daily job *)

Section CleanupJob.

Import Timer.

Variable now : Z.

Let closed := Cleanup.closed now.


Lemma closed_id (d : Doc) : _id (closed d) = _id d.
Proof. unfold closed, Cleanup.closed. destruct (timerStartTime d); reflexivity. Qed.





End CleanupJob.


(** ** The daily review *)

Ltac review_cases w :=
  destruct w as [tt' ta pr rp td dd];
  destruct tt' as [today_tasks |]; destruct ta as [every_task |];
  destruct pr as [[] |]; destruct rp as [| [v |]].

(** X20. The daily-review handler has no rule-based fallback for a failed
    call of the remote model: it answers 500 exactly when one of its three
    queries or the call of the model rejects. When the reply parses it is
    passed on as it is; only when the reply does not parse does the handler
    answer with the rule-based review of the day's data. *)
Theorem daily_review_error_iff (w : Review.world) :
  exists r : response,
    snd (Review.daily_review w) = Some r /\
    (status_code r = 500 <->
     Review.tasks_today w = None \/ Review.all_tasks w = None \/
     Review.projects w = None \/ Review.reply w = CallFails) /\
    (status_code r = 500 ->
     body r = VObj [("message", VStr "Server error generating daily review")] /\
     ~ In RuleBased (fst (Review.daily_review w))) /\
    (forall tasks allTasks,
       Review.tasks_today w = Some tasks ->
       Review.all_tasks w = Some allTasks ->
       Review.projects w = Some tt ->
       (forall v, Review.reply w = Content (Some v) -> r = mkResponse 200 v) /\
       (Review.reply w = Content None ->
        r = mkResponse 200
              (Review.generateRuleBasedDailyReview
                 (Review.reviewData (Review.today_date w) (Review.today w)
                    tasks allTasks)))).
Proof.
  review_cases w;
    cbn -[Review.generateRuleBasedDailyReview Review.reviewData];
    eexists; (split; [reflexivity |]);
    cbn -[Review.generateRuleBasedDailyReview Review.reviewData];
    (split;
     [ split;
       [ intros H; first [ discriminate H | tauto ]
       | intros [H | [H | [H | H]]]; first [ reflexivity | discriminate H ] ]
     | ]);
    (split;
     [ intros H; first [ discriminate H
                       | split; [reflexivity |];
                         intros Hin; repeat (destruct Hin as [Hin | Hin]);
                         first [discriminate Hin | exact Hin] ]
     | intros tasks allTasks H1 H2 H3;
       first [ discriminate H1 | discriminate H2 | discriminate H3
             | injection H1 as <-; injection H2 as <-;
               split; [ intros v' Hv; first [discriminate Hv
                                            | injection Hv as <-; reflexivity]
                      | intros Hn; first [discriminate Hn | reflexivity] ] ] ]).
Qed.

Lemma length_firstn_3 {A : Type} (l : list A) :
  length (firstn 3 l) = Nat.min 3 (length l).
Proof. apply length_firstn. Qed.

(** X21. In the rule-based daily review that the handler builds, the
    achievements are one line per completed task of the day, in order and
    for the first three only; there are always two recommendations and
    three items of focus for tomorrow; the number of completed tasks is at
    most the number of tasks worked on; and the first recommendation is the
    praise exactly when the total time of the day's tasks exceeds 300
    minutes, the second exactly when more than three tasks were
    completed. *)
Theorem rule_based_review_shape
    (date : string) (today : Z) (tasks allTasks : list Review.Doc) :
  let completed :=
    filter (fun t => status_eqb (status (Review.fields t)) Completed) tasks in
  let data := Review.reviewData date today tasks allTasks in
  let review := Review.generateRuleBasedDailyReview data in
  elements (field "achievements" review)
  = map (fun t => VStr ("âœ… Completed " ++ DQUOTE ++ Review.title t ++ DQUOTE))
        (firstn 3 completed) /\
  length (elements (field "achievements" review))
  = Nat.min 3 (length completed) /\
  length (elements (field "recommendations" review)) = 2%nat /\
  length (elements (field "tomorrowFocus" review)) = 3%nat /\
  0 <= Review.Data.tasksCompleted data <= Review.Data.tasksWorkedOn data /\
  (nth 0 (elements (field "recommendations" review)) VUndefined
   = VStr "Great focus time today!"
   <-> 300 < Review.Data.totalFocusTime data) /\
  (nth 1 (elements (field "recommendations" review)) VUndefined
   = VStr "Excellent task completion rate!"
   <-> (3 < length completed)%nat) /\
  keys review = ["summary"; "achievements"; "recommendations";
                 "tomorrowFocus"; "motivationalNote"].
Proof.
  cbv zeta.
  set (completed :=
         filter (fun t => status_eqb (status (Review.fields t)) Completed) tasks).
  assert (Hach :
    elements (field "achievements"
      (Review.generateRuleBasedDailyReview
         (Review.reviewData date today tasks allTasks)))
    = map (fun t => VStr ("âœ… Completed " ++ DQUOTE ++ Review.title t ++ DQUOTE))
          (firstn 3 completed)).
  { unfold Review.generateRuleBasedDailyReview, Review.reviewData.
    cbn [field get_prop lookup String.eqb Ascii.eqb Bool.eqb elements
         Review.Data.completedTasks Review.slice_0_3].
    fold completed. unfold Review.slice_0_3. rewrite firstn_map, map_map. reflexivity. }
  split; [exact Hach |]. split.
  { rewrite Hach, length_map. apply length_firstn_3. }
  unfold Review.generateRuleBasedDailyReview, Review.reviewData.
  cbn [field get_prop lookup String.eqb Ascii.eqb Bool.eqb elements keys map fst
       Review.Data.tasksCompleted Review.Data.tasksWorkedOn
       Review.Data.totalFocusTime length nth].
  fold completed. unfold Review.len.
  split; [reflexivity | split; [reflexivity |]].
  split.
  { split; [lia |]. apply Nat2Z.inj_le. apply filter_length_le. }
  split; [| split; [| reflexivity]].
  - rewrite Z.gtb_ltb.
    destruct (Z.ltb_spec 300
                (fold_left (fun acc task => acc + timeSpent (Review.fields task))
                   tasks 0)); split; intros H0; try assumption;
      try reflexivity; try discriminate H0; lia.
  - rewrite Z.gtb_ltb.
    destruct (Z.ltb_spec 3 (Z.of_nat (length completed)));
      split; intros H0; try reflexivity; try discriminate H0; lia.
Qed.

(** ** The other methods of [AIService] *)

Lemma truthy_js_or_list (x : value) : truthy (js_or x (VArr [])) = true.
Proof. unfold js_or. destruct (truthy x) eqn:H; [exact H | reflexivity]. Qed.

(** X22. [suggestTasks] never fails and always returns an object with the
    single field [suggestions], which is never absent or falsy. Every
    failure of the request (network error, an HTTP error status such as the
    404 of an unknown project, a body that is not JSON) gives the empty
    list, the same answer as a reply without suggestions. *)
Theorem suggestTasks_swallows_failures (r : Frontend.reply) :
  keys (AIService.suggestTasks r) = ["suggestions"] /\
  truthy (field "suggestions" (AIService.suggestTasks r)) = true /\
  (Frontend.makeRequest r = None ->
   AIService.suggestTasks r = VObj [("suggestions", VArr [])]) /\
  (forall data, Frontend.makeRequest r = Some data ->
     field "suggestions" (AIService.suggestTasks r)
     = js_or (field "suggestions" data) (VArr [])).
Proof.
  unfold AIService.suggestTasks.
  destruct (Frontend.makeRequest r) as [data|].
  - destruct (get_prop data "suggestions") as [s|] eqn:Hs.
    + repeat split; try discriminate.
      * cbn. apply truthy_js_or_list.
      * intros d Hd. injection Hd as <-. unfold field at 2. rewrite Hs.
        reflexivity.
    + repeat split; try discriminate.
      intros d Hd. injection Hd as <-. unfold field at 2. rewrite Hs.
      reflexivity.
  - repeat split. intros d Hd. discriminate Hd.
Qed.

Lemma in_firstn {A : Type} (n : nat) (l : list A) (x : A) :
  In x (firstn n l) -> In x l.
Proof.
  revert l. induction n as [| n IH]; intros l Hin; [destruct Hin |].
  destruct l as [| a rest]; [destruct Hin |].
  destruct Hin as [-> | Hin]; [left; reflexivity | right; exact (IH rest Hin)].
Qed.

Section DailyReviewFacts.

Variable toDateString : Z -> string.

(** X23. On the success path of [generateDailyReview] the returned object
    has exactly the five fields of a review; the three lists and the
    motivational note are never absent or falsy, while the summary is the
    empty string when the reply has none. When the request fails, or the
    body is [null], the result is the local fallback review. *)
Theorem generateDailyReview_defaults
    (now : Z) (r : Frontend.reply) (tasks : list AIService.AppTask) :
  let result := AIService.generateDailyReview toDateString now r tasks in
  (forall data, Frontend.makeRequest r = Some data ->
     data <> VNull -> data <> VUndefined ->
     keys result = ["summary"; "achievements"; "recommendations";
                    "tomorrowFocus"; "motivationalNote"] /\
     truthy (field "achievements" result) = true /\
     truthy (field "recommendations" result) = true /\
     truthy (field "tomorrowFocus" result) = true /\
     truthy (field "motivationalNote" result) = true /\
     field "summary" result = js_or (field "summary" data) (VStr "") /\
     field "motivationalNote" result
     = js_or (field "motivationalNote" data) (VStr "Keep up the great work!")) /\
  (Frontend.makeRequest r = None \/ Frontend.makeRequest r = Some VNull ->
   result = AIService.fallbackDailyReview toDateString now tasks).
Proof.
  cbv zeta. unfold AIService.generateDailyReview. split.
  - intros data Hreq Hnull Hundef. rewrite Hreq.
    assert (Hget : forall k, get_prop data k = Some (field k data)).
    { intros k. unfold field. destruct data; try reflexivity; try contradiction.
      cbn. destruct (lookup k props); reflexivity. }
    rewrite !Hget. cbn [keys map fst].
    split; [reflexivity |].
    cbn [field get_prop lookup String.eqb Ascii.eqb Bool.eqb].
    repeat split; try apply truthy_js_or_list.
    unfold js_or. destruct (truthy (field "motivationalNote" data)) eqn:H;
      [exact H | reflexivity].
  - intros [Hreq | Hreq]; rewrite Hreq; reflexivity.
Qed.

(** X24. In the frontend's fallback review, the focus for tomorrow holds
    at most three titles, in the order of the task list, each the title of
    a task with priority high that is not completed, whatever day the task
    was updated; the achievements are at most three, each for a task
    completed and updated today. *)
Theorem fallback_review_focus (now : Z) (tasks : list AIService.AppTask) :
  elements (field "tomorrowFocus" (AIService.fallbackDailyReview toDateString now tasks))
  = map (fun t => VStr (AIService.title t))
        (firstn 3 (filter AIService.is_high_and_open tasks)) /\
  (length (elements (field "tomorrowFocus" (AIService.fallbackDailyReview toDateString now tasks))) <= 3)%nat /\
  Forall (fun v => exists t, In t tasks /\ v = VStr (AIService.title t) /\
                     priority (AIService.fields t) = High /\
                     status (AIService.fields t) <> Completed)
         (elements (field "tomorrowFocus" (AIService.fallbackDailyReview toDateString now tasks))) /\
  (length (elements (field "achievements" (AIService.fallbackDailyReview toDateString now tasks))) <= 3)%nat /\
  Forall (fun v => exists t, In t tasks /\
                     status (AIService.fields t) = Completed /\
                     toDateString (AIService.updatedAt t) = toDateString now /\
                     v = VStr ("âœ… Completed " ++ DQUOTE ++ AIService.title t
                               ++ DQUOTE))
         (elements (field "achievements" (AIService.fallbackDailyReview toDateString now tasks))).
Proof.
  unfold AIService.fallbackDailyReview.
  cbn [field get_prop lookup String.eqb Ascii.eqb Bool.eqb elements].
  split; [reflexivity |]. split.
  { rewrite length_map, length_firstn. lia. }
  split.
  { apply Forall_forall. intros v Hv. apply in_map_iff in Hv.
    destruct Hv as (t & <- & Hin). apply in_firstn in Hin.
    apply filter_In in Hin. destruct Hin as [Hin Hopen].
    unfold AIService.is_high_and_open in Hopen. apply andb_prop in Hopen.
    destruct Hopen as [Hst Hpr].
    exists t. repeat split; try assumption.
    - destruct (priority (AIService.fields t)); try discriminate; reflexivity.
    - intros Hc. rewrite Hc in Hst. discriminate Hst. }
  split.
  { rewrite length_map, length_firstn. lia. }
  apply Forall_forall. intros v Hv. apply in_map_iff in Hv.
  destruct Hv as (t & <- & Hin). apply in_firstn in Hin.
  apply filter_In in Hin. destruct Hin as [Hin Hdone].
  apply filter_In in Hin. destruct Hin as [Hin Hday].
  exists t. repeat split; try assumption.
  - destruct (status (AIService.fields t)); try discriminate; reflexivity.
  - apply String.eqb_eq. exact Hday.
Qed.

End DailyReviewFacts.

(** ** The two daily reviews side by side *)

Section ReviewsAgree.

Variable toDateString : Z -> string.

Let completedA (t : AIService.AppTask) : bool :=
  status_eqb (status (AIService.fields t)) Completed.
Let completedD (t : Review.Doc) : bool :=
  status_eqb (status (Review.fields t)) Completed.

Lemma same_completed (l1 : list AIService.AppTask) (l2 : list Review.Doc) :
  Forall2 same_review_task l1 l2 ->
  Forall2 same_review_task (filter completedA l1) (filter completedD l2).
Proof.
  induction 1 as [| a d l1 l2 (Ht & Hs & Hf) _ IH]; [constructor |].
  cbn [filter]. unfold completedA at 1, completedD at 1. rewrite Hs.
  destruct (status_eqb (status (Review.fields d)) Completed);
    [constructor; [repeat split; assumption | exact IH] | exact IH].
Qed.

Lemma same_firstn (n : nat) (l1 : list AIService.AppTask)
    (l2 : list Review.Doc) :
  Forall2 same_review_task l1 l2 ->
  Forall2 same_review_task (firstn n l1) (firstn n l2).
Proof.
  intros H. revert n. induction H as [| a d l1 l2 Had _ IH]; intros n.
  - rewrite !firstn_nil. constructor.
  - destruct n as [| n]; [constructor |]. cbn [firstn].
    constructor; [exact Had | apply IH].
Qed.

Lemma same_titles (l1 : list AIService.AppTask) (l2 : list Review.Doc) :
  Forall2 same_review_task l1 l2 ->
  map (fun t => VStr ("âœ… Completed " ++ DQUOTE ++ AIService.title t ++ DQUOTE)) l1
  = map (fun t => VStr ("âœ… Completed " ++ DQUOTE ++ Review.title t ++ DQUOTE)) l2.
Proof.
  induction 1 as [| a d l1 l2 (Ht & Hs & Hf) _ IH]; [reflexivity |].
  cbn [map]. rewrite Ht, IH. reflexivity.
Qed.

Lemma same_total (l1 : list AIService.AppTask) (l2 : list Review.Doc) :
  Forall2 same_review_task l1 l2 ->
  forall acc,
    fold_left (fun a t => a + timeSpent (AIService.fields t)) l1 acc
    = fold_left (fun a t => a + timeSpent (Review.fields t)) l2 acc.
Proof.
  induction 1 as [| a d l1 l2 (Ht & Hs & Hf) _ IH]; intros acc; [reflexivity |].
  cbn [fold_left]. rewrite Hf. apply IH.
Qed.

(** X25. The two rule-based daily reviews agree where they overlap: when
    the tasks that the frontend counts as today's are, one by one, the
    tasks that the backend fetched as updated today (same titles,
    statuses and times spent), the frontend fallback and the backend fallback give the same
    achievements, the same motivational note and the same first two
    recommendations; the frontend adds a third recommendation. *)
Theorem daily_reviews_agree
    (now : Z) (appTasks : list AIService.AppTask)
    (date : string) (today : Z) (tasks allTasks : list Review.Doc) :
  Forall2 same_review_task
    (filter (fun task =>
               String.eqb (toDateString (AIService.updatedAt task))
                          (toDateString now)) appTasks)
    tasks ->
  let front := AIService.fallbackDailyReview toDateString now appTasks in
  let back := Review.generateRuleBasedDailyReview
                (Review.reviewData date today tasks allTasks) in
  field "achievements" front = field "achievements" back /\
  field "motivationalNote" front = field "motivationalNote" back /\
  firstn 2 (elements (field "recommendations" front))
  = elements (field "recommendations" back) /\
  length (elements (field "recommendations" front)) = 3%nat.
Proof.
  intros Hsame. cbv zeta.
  unfold AIService.fallbackDailyReview, Review.generateRuleBasedDailyReview,
    Review.reviewData.
  cbn [field get_prop lookup String.eqb Ascii.eqb Bool.eqb elements
       length Review.Data.completedTasks Review.Data.totalFocusTime
       Review.Data.tasksCompleted Review.slice_0_3].
  set (todayTasks := filter _ appTasks) in *.
  fold completedA. fold completedD.
  pose proof (same_completed _ _ Hsame) as Hdone.
  split; [| split; [reflexivity | split; [| reflexivity]]].
  - f_equal. unfold Review.slice_0_3. rewrite firstn_map, map_map.
    cbn [Review.Data.title].
    apply same_titles, same_firstn, Hdone.
  - cbn [firstn]. rewrite (same_total _ _ Hsame 0).
    unfold Review.len. rewrite <- (Forall2_length Hdone).
    rewrite !Z.gtb_ltb.
    replace (3 <? Z.of_nat (length (filter completedA todayTasks)))
      with (Nat.ltb 3 (length (filter completedA todayTasks))); [reflexivity |].
    destruct (Nat.ltb_spec 3 (length (filter completedA todayTasks)));
      destruct (Z.ltb_spec 3 (Z.of_nat (length (filter completedA todayTasks))));
      try reflexivity; lia.
Qed.

End ReviewsAgree.

Lemma daily_reviews_agree_witness :
  field "achievements"
    (AIService.fallbackDailyReview (fun _ => "day") 0
       [ AIService.mkAppTask "write" 0 (mkTask "1" Low Completed None 40) ])
  = field "achievements"
      (Review.generateRuleBasedDailyReview
         (Review.reviewData "2024-01-01" 0
            [ Review.mkDoc "write" None (mkTask "65f" Low Completed None 40) ]
            [])).
Proof.
  destruct (daily_reviews_agree (fun _ => "day") 0
              [ AIService.mkAppTask "write" 0 (mkTask "1" Low Completed None 40) ]
              "2024-01-01" 0
              [ Review.mkDoc "write" None (mkTask "65f" Low Completed None 40) ]
              []) as [H _].
  - repeat constructor.
  - exact H.
Defined.

(** ** The date helpers of the task card *)

Section DateHelpers.

Variable toLocaleDateString : Z -> bool -> string.
Variable getFullYear : Z -> Z.
Variable endOfDay : Z -> Z.

Lemma formatDate_days (now date d : Z) :
  (d - 1) * MS_PER_DAY < date - now <= d * MS_PER_DAY ->
  Qceiling (inject_Z (date - now) / inject_Z MS_PER_DAY) = d.
Proof. intros H. apply (proj2 (daysUntil_spec now date d)). exact H. Qed.

(** X26. The relative labels of [formatDate] count whole days upwards
    from [now]: a date in the last 24 hours reads "Today", a date in the
    next 24 hours (even one millisecond ahead) reads "Tomorrow", a date
    between 24 and 48 hours back reads "Yesterday", and for [d] from 2 to 7
    a date between [d - 1] and [d] days ahead reads "In d days" and one
    between [d] and [d + 1] days back reads "d days ago". *)
Theorem formatDate_relative_labels (now date : Z) :
  let shown := DateUtils.formatDate toLocaleDateString getFullYear now date in
  (- MS_PER_DAY < date - now <= 0 -> shown = "Today") /\
  (0 < date - now <= MS_PER_DAY -> shown = "Tomorrow") /\
  (- 2 * MS_PER_DAY < date - now <= - MS_PER_DAY -> shown = "Yesterday") /\
  (forall d, 2 <= d <= 7 ->
     (d - 1) * MS_PER_DAY < date - now <= d * MS_PER_DAY ->
     shown = "In " ++ show d ++ " days") /\
  (forall d, 2 <= d <= 7 ->
     (- d - 1) * MS_PER_DAY < date - now <= - d * MS_PER_DAY ->
     shown = show d ++ " days ago").
Proof.
  cbv zeta. unfold DateUtils.formatDate. cbv zeta.
  split; [| split; [| split; [| split]]].
  - intros H. rewrite (formatDate_days now date 0) by lia. reflexivity.
  - intros H. rewrite (formatDate_days now date 1) by lia. reflexivity.
  - intros H. rewrite (formatDate_days now date (-1)) by lia. reflexivity.
  - intros d Hd H. rewrite (formatDate_days now date d) by lia.
    destruct (Z.eqb_spec d 0); [lia |]. destruct (Z.eqb_spec d 1); [lia |].
    destruct (Z.eqb_spec d (-1)); [lia |].
    destruct (Z.ltb_spec 0 d); [| lia]. destruct (Z.leb_spec d 7); [| lia].
    reflexivity.
  - intros d Hd H. rewrite (formatDate_days now date (- d)) by lia.
    destruct (Z.eqb_spec (- d) 0); [lia |].
    destruct (Z.eqb_spec (- d) 1); [lia |].
    destruct (Z.eqb_spec (- d) (-1)); [lia |].
    destruct (Z.ltb_spec 0 (- d)); [lia |].
    destruct (Z.ltb_spec (- d) 0); [| lia].
    destruct (Z.leb_spec (-7) (- d)); [| lia].
    cbn [andb]. replace (Z.abs (- d)) with d by lia. reflexivity.
Qed.

(** X27. When the end of the local day is at or after [now] and less than
    one day after it, every task that the insight counts as overdue (due
    date before [now]) is shown as overdue by the task card, and every
    task that the card shows as overdue gets the reason "Due very soon" and
    is never labelled low by the prioritisation; a task due later today is
    overdue for the card but not for the insight. *)
Theorem card_overdue_and_prioritisation (now : Z) (u : Q) (t : Task) (due : Z) :
  now <= endOfDay now < now + MS_PER_DAY ->
  dueDate t = Some due ->
  (overdue now t = true -> DateUtils.isOverdue endOfDay now due = true) /\
  (DateUtils.isOverdue endOfDay now due = true ->
   field "suggestedPriority" (Backend.suggestion now u t) <> VStr "low" /\
   exists rest, field "reason" (Backend.suggestion now u t)
                = VStr ("Due very soon" ++ rest)) /\
  (now <= due < endOfDay now ->
   DateUtils.isOverdue endOfDay now due = true /\ overdue now t = false).
Proof.
  intros Hday Hdue. unfold DateUtils.isOverdue, overdue.
  rewrite Hdue. split; [| split].
  - intros H. apply Z.ltb_lt in H. apply Z.ltb_lt. lia.
  - intros H. apply Z.ltb_lt in H.
    assert (Hnear : due - now <= MS_PER_DAY) by lia.
    destruct (within_a_day_urgent now u t due Hdue Hnear) as (_ & Hl & Hr).
    split; assumption.
  - intros H. split; [apply Z.ltb_lt | apply Z.ltb_ge]; lia.
Qed.

End DateHelpers.

Lemma card_overdue_and_prioritisation_witness :
  DateUtils.isOverdue (fun now => now + 1000) 5000 5500 = true /\
  overdue 5000 (mkTask "t" Low Todo (Some 5500) 0) = false.
Proof.
  destruct (card_overdue_and_prioritisation (fun now => now + 1000) 5000 0
              (mkTask "t" Low Todo (Some 5500) 0) 5500) as (_ & _ & H).
  - rewrite MS_PER_DAY_value. lia.
  - reflexivity.
  - apply H. lia.
Defined.

(** ** The pages of the task list *)

Lemma ceiling_quotient (a b : Z) :
  0 < b -> Qceiling (inject_Z a / inject_Z b) = - (- a / b).
Proof.
  intros Hb. destruct b as [| p | p]; try lia.
  unfold Qceiling, Qfloor, Qdiv, Qmult, Qinv, Qopp, inject_Z. simpl.
  rewrite Z.mul_1_r. reflexivity.
Qed.

Lemma pages_prefix {A : Type} (n : nat) (limit : Z) (l : list A) :
  0 < limit ->
  TaskList.all_pages n limit l = firstn (n * Z.to_nat limit) l.
Proof.
  intros Hl. unfold TaskList.all_pages.
  induction n as [| n IH]; [reflexivity |].
  rewrite seq_S, map_app, concat_app, IH. cbn [map concat plus].
  rewrite app_nil_r.
  unfold TaskList.list_tasks, TaskList.or_default. cbn [fst].
  replace (Z.to_nat (limit * 1)) with (Z.to_nat limit) by (f_equal; lia).
  replace (Z.to_nat ((Z.of_nat n + 1 - 1) * limit))
    with (n * Z.to_nat limit)%nat by nia.
  rewrite <- (firstn_skipn (n * Z.to_nat limit)
                (firstn (S n * Z.to_nat limit) l)).
  rewrite firstn_firstn, skipn_firstn_comm.
  replace (Nat.min (n * Z.to_nat limit) (S n * Z.to_nat limit))
    with (n * Z.to_nat limit)%nat by lia.
  replace (S n * Z.to_nat limit - n * Z.to_nat limit)%nat
    with (Z.to_nat limit) by lia.
  reflexivity.
Qed.

(** X28. The pages of the task list partition the matching tasks: for a
    limit of at least 1, [pagination.pages] is the least number of pages
    of that size that hold all the tasks, the pages from 1 to that number,
    one after the other, are exactly the matching tasks in order, each page
    has at most [limit] tasks, and any page after the last is empty. *)
Theorem task_list_pages_partition {A : Type} (limit : Z) (matching : list A) :
  1 <= limit ->
  let pagination p := snd (TaskList.list_tasks (Some p) (Some limit) matching) in
  let tasks p := fst (TaskList.list_tasks (Some p) (Some limit) matching) in
  let pages := TaskList.pages (pagination 1) in
  (pages - 1) * limit < Z.of_nat (length matching) <= pages * limit /\
  TaskList.all_pages (Z.to_nat pages) limit matching = matching /\
  (forall p, 1 <= p -> (length (tasks p) <= Z.to_nat limit)%nat) /\
  (forall p, pages < p -> tasks p = []) /\
  (forall p, TaskList.pages (pagination p) = pages /\
             TaskList.total (pagination p) = Z.of_nat (length matching)).
Proof.
  intros Hl. cbv zeta.
  unfold TaskList.list_tasks, TaskList.or_default.
  cbn [fst snd TaskList.pages TaskList.total].
  rewrite ceiling_quotient by lia.
  set (total := Z.of_nat (length matching)).
  pose proof (Z.div_mod (- total) limit ltac:(lia)) as Hdm.
  pose proof (Z.mod_pos_bound (- total) limit ltac:(lia)) as Hmod.
  assert (Hbounds : (- (- total / limit) - 1) * limit < total
                    <= - (- total / limit) * limit) by nia.
  assert (Hpages : 0 <= - (- total / limit)) by (unfold total in *; nia).
  split; [exact Hbounds |]. split; [| split; [| split]].
  - rewrite pages_prefix by lia. apply firstn_all2.
    unfold total in Hbounds. nia.
  - intros p Hp.
    replace (Z.to_nat (limit * 1)) with (Z.to_nat limit) by (f_equal; lia).
    rewrite length_firstn. lia.
  - intros p Hp. rewrite skipn_all2; [apply firstn_nil |].
    unfold total in Hbounds. nia.
  - intros p. split; reflexivity.
Qed.

Lemma task_list_pages_partition_witness :
  TaskList.all_pages 3 2 ["a"; "b"; "c"; "d"; "e"] = ["a"; "b"; "c"; "d"; "e"].
Proof.
  destruct (task_list_pages_partition 2 ["a"; "b"; "c"; "d"; "e"])
    as (_ & H & _).
  - lia.
  - exact H.
Defined.
